(** * The Gemini File Search engine adapter

    A shallow embedding of [app/engines/base.py] and
    [app/engines/gemini_engine.py]: the adapter state, the ingestion run
    ([build_index]), the persisted pointer file ([_save_store_info],
    [load_corpus_info], [get_index_info]), the query path ([query],
    [_extract_sources], [_estimate_cost]), and the properties the design
    document states about them.

    Conventions of the embedding.
    - A Python [str] is the list of its code points ([pystr]); [len] is the
      length of that list and slicing cuts it.  Attribute names, dictionary
      keys and environment variable names are identifiers and are kept as
      [string].
    - A Python object whose shape is probed with [hasattr] has fields of type
      [attr A]: the attribute is [Absent] or [Attr v]; a field that may hold
      [None] has type [attr (option A)].
    - A Python [float] is a rational; every float operation is the exact
      operation followed by the rounding [rnd], a parameter of the
      development.  Infinities and NaN are outside this model; of overflow
      it has the conversion of an integer too large for a float.
    - What the environment answers (the provider, the clock, the disk) is an
      argument of the operation that asks for it; what the operation does to
      the environment (the pointer file, the calls made to the provider) is
      part of its result. *)

From Stdlib Require Import QArith.
From stdpp Require Import gmap strings list pretty.

(** ** Python values *)

Definition pystr := list N.

(** [py s]: the text of an ASCII literal. *)
Fixpoint py (s : string) : pystr :=
  match s with
  | EmptyString => []
  | String a s' => Ascii.N_of_ascii a :: py s'
  end.

(** JSON documents and the Python values [json.load] builds from them. *)
#[warnings="-register-all"]
Inductive value :=
| VNone
| VBool (b : bool)
| VInt (z : Z)
| VFloat (q : Q)
| VStr (s : pystr)
| VList (l : list value)
| VDict (d : gmap string value).

(** Truth value testing, [bool(v)]. *)
Definition Qnonzero (q : Q) : bool := negb (Qnum q =? 0)%Z.

Definition truthy (v : value) : bool :=
  match v with
  | VNone => false
  | VBool b => b
  | VInt z => negb (z =? 0)%Z
  | VFloat q => Qnonzero q
  | VStr s => negb (bool_decide (s = []))
  | VList l => match l with [] => false | _ => true end
  | VDict d => negb (bool_decide (d = ∅))
  end.

(** Truthiness of an [Optional[str]] field, as in [x.title and ...]. *)
Definition str_truthy (o : option pystr) : bool :=
  match o with
  | Some (_ :: _) => true
  | _ => false
  end.

Inductive exn :=
| ValueError (msg : pystr)
| RuntimeError (msg : pystr)
| TypeError
| AttributeError
| OSError
| JSONDecodeError
| KeyError
| OverflowError
| ValidationError (msg : pystr)
| ProviderError (msg : pystr).

Inductive result (A : Type) :=
| Ok (a : A)
| Raise (e : exn).
Arguments Ok {A} a.
Arguments Raise {A} e.

(** Sequencing: an exception raised by a step leaves the block. *)
#[global] Instance result_ret : MRet result := λ A a, Ok a.
#[global] Instance result_bind : MBind result := λ A B k r,
  match r with
  | Ok a => k a
  | Raise e => Raise e
  end.

Inductive attr (A : Type) :=
| Absent
| Attr (a : A).
Arguments Absent {A}.
Arguments Attr {A} a.

(** [hasattr(o, name)] *)
Definition hasattr {A} (a : attr A) : bool :=
  match a with Absent => false | Attr _ => true end.

(** [d.get(k)] and [d.get(k, default)] on a dictionary. *)
Definition dict_get (d : gmap string value) (k : string) : value :=
  default VNone (d !! k).
Definition dict_get_or (d : gmap string value) (k : string) (dflt : value) : value :=
  default dflt (d !! k).

(** [v.get(k, default)] on whatever [json.load] returned: only a dictionary
    has the method. *)
Definition value_get (v : value) (k : string) (dflt : value) : result value :=
  match v with
  | VDict d => Ok (dict_get_or d k dflt)
  | _ => Raise AttributeError
  end.

(** [s.split(sep)] on one separator character. *)
Fixpoint split (sep : N) (s : pystr) : list pystr :=
  match s with
  | [] => [[]]
  | c :: s' =>
      if (c =? sep)%N then [] :: split sep s'
      else match split sep s' with
           | [] => [[c]]
           | w :: ws => (c :: w) :: ws
           end
  end.

(** [l[-1]] on a list known to be non-empty (as [split] returns). *)
Definition last_segment (l : list pystr) : pystr := List.last l [].

(** [s[:n]] *)
Definition slice_to (n : nat) (s : pystr) : pystr := take n s.

Definition slash : N := 47%N.

Section Model.

(** ** Floats *)

(** The rounding of the float format. *)
Variable rnd : Q → Q.

Definition lit (q : Q) : Q := rnd q.
Definition of_int (z : Z) : Q := rnd (inject_Z z).
Definition fadd (a b : Q) : Q := rnd (a + b).
Definition fsub (a b : Q) : Q := rnd (a - b).
Definition fmul (a b : Q) : Q := rnd (a * b).
Definition fdiv (a b : Q) : Q := rnd (a / b).

Definition len (s : pystr) : Z := Z.of_nat (length s).

(** An integer converts to a float when it rounds to a finite one. *)
Definition int_fits_float (z : Z) : bool :=
  (Z.abs z <? 2 ^ 1024 - 2 ^ 970)%Z.

(** The other operand of a float operation: numbers are converted, an
    integer too large for a float is an [OverflowError], anything that is
    not a number a [TypeError]. *)
Definition as_float (v : value) : result Q :=
  match v with
  | VInt z => if int_fits_float z then Ok (of_int z) else Raise OverflowError
  | VBool b => Ok (of_int (if b then 1 else 0))
  | VFloat q => Ok q
  | _ => Raise TypeError
  end.

(** *** [GeminiEngine._estimate_cost] *)

(** The estimate over a pricing section that maps its keys to numbers. *)
Definition default_input_price : Q := lit (75 # 1000).
Definition default_output_price : Q := lit (30 # 100).

Definition _estimate_cost (pricing : gmap string Q)
    (input_text output_text : pystr) : Q :=
  let input_tokens := fmul (of_int (len input_text)) (lit (15 # 10)) in
  let output_tokens := fmul (of_int (len output_text)) (lit (15 # 10)) in
  let input_price := default default_input_price (pricing !! "input_price") in
  let output_price := default default_output_price (pricing !! "output_price") in
  fadd (fmul (fdiv input_tokens (of_int 1000000)) input_price)
       (fmul (fdiv output_tokens (of_int 1000000)) output_price).

(** The call [self._estimate_cost(question, answer)] of an adapter whose
    [pricing] attribute holds whatever the configuration has under
    ['pricing']: [.get] on a section that is no mapping raises an
    [AttributeError], and the product with a price that is no number a
    [TypeError] (an [OverflowError] for an integer too large for a float).
    Both prices are read before the first product is formed, and no other
    key of the section is looked at. *)
Definition estimate_cost_call (pricing : value)
    (input_text output_text : pystr) : result Q :=
  input_price ← value_get pricing "input_price" (VFloat default_input_price);
  output_price ←
    value_get pricing "output_price" (VFloat default_output_price);
  input_price ← as_float input_price;
  output_price ← as_float output_price;
  Ok (_estimate_cost
        (<["input_price" := input_price]>
         (<["output_price" := output_price]> ∅))
        input_text output_text).

(** ** The data classes of [base.py] *)

Record Source := {
  filename : pystr;
  snippet : pystr;
  score : Q;
  metadata : option (gmap string value)
}.

Record RAGResponse := {
  answer : pystr;
  sources : list Source;
  confidence : Q;
  latency : Q;
  cost_estimate : Q;
  engine_name : pystr;
  response_metadata : option (gmap string value)
}.

(** ** The provider's reply, as far as the adapter probes it

    Every attribute the code tests with [hasattr] is an [attr]; the ones it
    also tests for truth may hold [None].  A score, where a chunk has one,
    is a number, on which [float()] changes nothing. *)

Record RetrievedContext := {
  title : attr (option pystr);
  uri : attr (option pystr);
  text : attr (option pystr)
}.

Record GroundingChunk := {
  retrieved_context : attr (option RetrievedContext);
  chunk_score : attr Q
}.

Record GroundingMetadata := {
  grounding_chunks : attr (option (list GroundingChunk))
}.

Record Candidate := {
  grounding_metadata : attr (option GroundingMetadata)
}.

Record Response := {
  response_text : attr (option pystr);
  candidates : attr (option (list Candidate));
  (** what [str(response)] prints *)
  response_str : pystr
}.

(** [getattr] on the context, which itself may be [None]: [None] has none
    of the attributes. *)
Definition context_attr (field : RetrievedContext → attr (option pystr))
    (context : option RetrievedContext) : attr (option pystr) :=
  match context with
  | None => Absent
  | Some c => field c
  end.

(** [hasattr(context, name) and context.name] *)
Definition has_true (a : attr (option pystr)) : bool :=
  hasattr a && match a with Attr o => str_truthy o | Absent => false end.

(** The string an attribute holds (read only after [has_true]). *)
Definition attr_str (a : attr (option pystr)) : pystr :=
  match a with
  | Attr (Some s) => s
  | _ => []
  end.

(** "未知文件" *)
Definition placeholder_filename : pystr :=
  [26410; 30693; 25991; 20214]%N.

(** *** [GeminiEngine._extract_sources] *)

(** The body of the loop for one chunk whose [retrieved_context] attribute
    exists. *)
Definition make_source (i : nat) (context : option RetrievedContext)
    (chunk : GroundingChunk) : Source :=
  let filename0 := placeholder_filename in
  let filename1 :=
    if has_true (context_attr title context)
    then attr_str (context_attr title context)
    else if has_true (context_attr uri context)
         then last_segment (split slash (attr_str (context_attr uri context)))
         else filename0 in
  let snippet0 : pystr := [] in
  let snippet1 :=
    if has_true (context_attr text context)
    then slice_to 500 (attr_str (context_attr text context))
    else snippet0 in
  let score0 := lit 1 in
  let score1 :=
    match chunk_score chunk with
    | Attr s => s
    | Absent => score0
    end in
  {| filename := filename1;
     snippet := snippet1;
     score := score1;
     metadata := Some (<["type" := VStr (py "file_search")]>
                       (<["index" := VInt (Z.of_nat i)]> ∅)) |}.

(** [for i, chunk in enumerate(metadata.grounding_chunks)], appending to
    [sources]. *)
Fixpoint extract_loop (i : nat) (chunks : list GroundingChunk)
    (sources : list Source) : list Source :=
  match chunks with
  | [] => sources
  | chunk :: rest =>
      let sources' :=
        match retrieved_context chunk with
        | Attr context => sources ++ [make_source i context chunk]
        | Absent => sources
        end in
      extract_loop (S i) rest sources'
  end.

(** The [try] block: the list of sources when the block is left, and
    whether it was left by an exception.  The only operation of the block
    that can raise here is [len(response.candidates)] on [None]; the loop
    over [grounding_supports] does nothing and is left out. *)
Definition extract_try (response : Response) (sources : list Source)
    : list Source * result () :=
  match candidates response with
  | Absent => (sources, Ok ())
  | Attr None => (sources, Raise TypeError)
  | Attr (Some []) => (sources, Ok ())
  | Attr (Some (candidate :: _)) =>
      match grounding_metadata candidate with
      | Attr (Some metadata) =>
          match grounding_chunks metadata with
          | Attr (Some (chunk :: rest)) =>
              (extract_loop 0 (chunk :: rest) sources, Ok ())
          | _ => (sources, Ok ())
          end
      | _ => (sources, Ok ())
      end
  end.

(** The exception, if any, is logged and dropped; an empty result is
    logged as a warning; the sources are returned either way. *)
Definition _extract_sources (response : Response) : list Source :=
  let '(sources, _) := extract_try response [] in
  sources.

(** ** The adapter *)

(** The engine configuration, a mapping with the keys ['api_key_env'],
    ['model'], ['pricing'] and ['generation']; [None] is a missing key.  The
    pricing and generation sections are whatever the document holds under
    their keys, a mapping or not ([generation:] alone is [VNone]). *)
Record Config := {
  cfg_api_key_env : option string;
  cfg_model : option pystr;
  cfg_pricing : option value;
  cfg_generation : option value
}.

(** The attributes [RAGEngine.__init__] and [GeminiEngine.__init__] set. *)
Record GeminiEngine := {
  config : Config;
  class_name : string;
  _initialized : bool;
  model_name : pystr;
  store_name : value;
  store_resource_name : value;
  pricing : value
}.

Definition set_store_resource_name (self : GeminiEngine) (v : value)
    : GeminiEngine :=
  {| config := config self; class_name := class_name self;
     _initialized := _initialized self; model_name := model_name self;
     store_name := store_name self; store_resource_name := v;
     pricing := pricing self |}.

Definition set_initialized (self : GeminiEngine) (b : bool) : GeminiEngine :=
  {| config := config self; class_name := class_name self;
     _initialized := b; model_name := model_name self;
     store_name := store_name self;
     store_resource_name := store_resource_name self;
     pricing := pricing self |}.

(** "Gemini API Key 未設置。請設置環境變數: " *)
Definition msg_no_api_key : pystr :=
  [71; 101; 109; 105; 110; 105; 32; 65; 80; 73; 32; 75; 101; 121; 32; 26410;
   35373; 32622; 12290; 35531; 35373; 32622; 29872; 22659; 35722; 25976; 58;
   32]%N.

(** [GeminiEngine.__init__], after [RAGEngine.__init__]; [environ] is the
    process environment.  The client object built from the key is not kept
    in the state: what the provider answers through it is an argument of the
    operations below. *)
Definition __init__ (cfg : Config) (environ : gmap string pystr)
    : result GeminiEngine :=
  let api_key_env := default "GEMINI_API_KEY" (cfg_api_key_env cfg) in
  let api_key := environ !! api_key_env in
  if negb (str_truthy api_key)
  then Raise (ValueError (msg_no_api_key ++ py api_key_env))
  else Ok {| config := cfg; class_name := "GeminiEngine";
             _initialized := false;
             model_name := default (py "gemini-2.0-flash-001") (cfg_model cfg);
             store_name := VNone; store_resource_name := VNone;
             pricing := default (VDict ∅) (cfg_pricing cfg) |}.

(** ** The provider *)

(** The arguments of one call to [client.models.generate_content]. *)
Record GenerateRequest := {
  req_model : pystr;
  req_contents : pystr;
  req_file_search_store_names : list value;
  req_temperature : value;
  req_max_output_tokens : value;
  req_system_instruction : value
}.

(** What the provider's library answers.  [create] returns the [name] of
    the new store, [upload] the [name] of the uploaded file; [upload] and
    [import_file] are also given the position of the call in its loop, so
    that the same arguments may be answered differently.  [validate] is what
    the constructors [types.FileSearch], [types.Tool] and
    [types.GenerateContentConfig] do with the arguments of a generation
    call before the call is made: they accept them, or raise a
    [ValidationError] with the given message. *)
Record Provider := {
  create : pystr → result value;
  upload : nat → pystr → result value;
  import_file : nat → value → value → result ();
  validate : GenerateRequest → option pystr;
  generate_content : GenerateRequest → result Response
}.

(** *** [GeminiEngine.query] *)

(** "Gemini 引擎尚未初始化或未建立索引" *)
Definition msg_not_initialized : pystr :=
  [71; 101; 109; 105; 110; 105; 32; 24341; 25806; 23578; 26410; 21021; 22987;
   21270; 25110; 26410; 24314; 31435; 32034; 24341]%N.

(** "File Search Store 未建立，請重新建立索引" *)
Definition msg_no_store : pystr :=
  [70; 105; 108; 101; 32; 83; 101; 97; 114; 99; 104; 32; 83; 116; 111; 114;
   101; 32; 26410; 24314; 31435; 65292; 35531; 37325; 26032; 24314; 31435;
   32034; 24341]%N.

(** [RAGEngine._calculate_latency]; [now] is the clock when it is called. *)
Definition _calculate_latency (start_time now : Q) : Q := fsub now start_time.

Definition default_confidence : Q := lit (85 # 100).
Definition gemini_engine_name : pystr := py "Gemini File Search".

(** The arguments of the generation call, as [query] puts them together
    between the [try] and the call: [.get] on a generation section that is
    not a mapping raises an [AttributeError]. *)
Definition build_request (self : GeminiEngine) (question : pystr)
    : result GenerateRequest :=
  let generation_config :=
    default (VDict ∅) (cfg_generation (config self)) in
  system_instruction ←
    value_get generation_config "system_instruction" (VStr []);
  temperature ←
    value_get generation_config "temperature" (VFloat (lit (1 # 10)));
  max_output_tokens ←
    value_get generation_config "max_output_tokens" (VInt 2000);
  Ok {| req_model := model_name self;
        req_contents := question;
        req_file_search_store_names := [store_resource_name self];
        req_temperature := temperature;
        req_max_output_tokens := max_output_tokens;
        req_system_instruction := system_instruction |}.

(** [query] returns or raises, and makes the listed calls to the
    generation endpoint.  [start_time] and [end_time] are the two readings
    of the clock.  The [except] clause logs and raises again: what is raised
    while the arguments are put together and validated is raised before any
    call. *)
Definition query (self : GeminiEngine) (question : pystr)
    (provider : Provider) (start_time end_time : Q)
    : result RAGResponse * list GenerateRequest :=
  if negb (_initialized self)
  then (Raise (RuntimeError msg_not_initialized), [])
  else if negb (truthy (store_resource_name self))
  then (Raise (RuntimeError msg_no_store), [])
  else
    match
      request ← build_request self question;
      if validate provider request is Some msg
      then Raise (ValidationError msg)
      else Ok request
    with
    | Raise e => (Raise e, [])
    | Ok request =>
        (response ← generate_content provider request;
         let answer :=
           match response_text response with
           | Attr t => t
           | Absent => Some (response_str response)
           end in
         let sources := _extract_sources response in
         let latency := _calculate_latency start_time end_time in
         (* [len(output_text)] in [_estimate_cost] raises on [None] *)
         answer ← (if answer is Some a then Ok a else Raise TypeError);
         cost ← estimate_cost_call (pricing self) question answer;
         Ok {| answer := answer;
               sources := sources;
               confidence := default_confidence;
               latency := latency;
               cost_estimate := cost;
               engine_name := gemini_engine_name;
               response_metadata := None |},
         [request])
    end.

(** ** The pointer file, [data/gemini_corpus/store_info.json] *)

(** The file is not there, or its directory cannot be searched (so that
    not even its existence can be told), or it cannot be opened, or does not
    hold JSON, or holds a JSON document.  [json.dump] writes the document it
    is given and [json.load] gives back the document the file holds; the
    text in between is not modelled. *)
Inductive pointer_file :=
| NoFile
| Unsearchable
| Unreadable
| Malformed
| Document (v : value).

(** What the disk does to one attempt to write the file: the write goes
    through, or [mkdir] or [open] raises (the file is as before), or the
    write raises half way (the file is left cut short). *)
Inductive disk :=
| DiskOk
| DiskRefuses
| DiskBreaks.

(** [with open(info_file, 'r') as f: info_data = json.load(f)] *)
Definition read_json (file : pointer_file) : result value :=
  match file with
  | NoFile => Raise OSError
  | Unsearchable => Raise OSError
  | Unreadable => Raise OSError
  | Malformed => Raise JSONDecodeError
  | Document v => Ok v
  end.

(** [info_file.exists()]: [Path.exists] answers [False] for a file that is
    not there and raises the [PermissionError] (an [OSError]) of a directory
    it may not search. *)
Definition exists_ (file : pointer_file) : result bool :=
  match file with
  | NoFile => Ok false
  | Unsearchable => Raise OSError
  | _ => Ok true
  end.

(** *** [GeminiEngine._save_store_info] *)

Definition info_data (store_resource_name : value)
    (uploaded_files : list value) (now : Q) (now_str : pystr)
    : gmap string value :=
  <["store_resource_name" := store_resource_name]>
  (<["created_at" := VFloat now]>
  (<["created_time" := VStr now_str]>
  (<["files" := VList uploaded_files]>
  (<["total_files" := VInt (Z.of_nat (length uploaded_files))]> ∅)))).

Definition _save_store_info (store_resource_name : value)
    (uploaded_files : list value) (now : Q) (now_str : pystr)
    (d : disk) (file : pointer_file) : result () * pointer_file :=
  match d with
  | DiskRefuses => (Raise OSError, file)
  | DiskBreaks => (Raise OSError, Malformed)
  | DiskOk =>
      (Ok (),
       Document (VDict (info_data store_resource_name uploaded_files
                          now now_str)))
  end.

(** *** [GeminiEngine.load_corpus_info] *)

(** What [load_corpus_info] returns or raises, and the adapter afterwards.
    The existence test is made before the [try]. *)
Definition load_corpus_info (self : GeminiEngine) (file : pointer_file)
    : result bool * GeminiEngine :=
  match exists_ file with
  | Raise e => (Raise e, self)
  | Ok false => (Ok false, self)
  | Ok true =>
      match info_data ← read_json file;
            value_get info_data "store_resource_name" VNone with
      | Raise _ => (Ok false, self)
      | Ok name =>
          let self1 := set_store_resource_name self name in
          if negb (truthy name) then (Ok false, self1)
          else (Ok true, set_initialized self1 true)
      end
  end.

(** *** [GeminiEngine.get_index_info] *)

(** [str(e)], the text of an exception. *)
Variable exn_str : exn → pystr.

(** "索引不存在" *)
Definition msg_index_missing : pystr :=
  [32034; 24341; 19981; 23384; 22312]%N.
(** "讀取失敗: " *)
Definition msg_read_failed : pystr :=
  [35712; 21462; 22833; 25943; 58; 32]%N.
(** "未知" *)
Definition unknown : pystr := [26410; 30693]%N.

Definition not_found (message : pystr) : gmap string value :=
  <["exists" := VBool false]>
  (<["expired" := VBool false]>
  (<["message" := VStr message]> ∅)).

(** The [try] block of [get_index_info]. *)
Definition index_info_try (file : pointer_file) (current_time : Q)
    : result (gmap string value) :=
  info_data ← read_json file;
  created_at ← value_get info_data "created_at" (VInt 0);
  created_at ← as_float created_at;
  let age_hours := fdiv (fsub current_time created_at) (of_int 3600) in
  created_time ← value_get info_data "created_time" (VStr unknown);
  total_files ← value_get info_data "total_files" (VInt 0);
  store_resource_name ←
    value_get info_data "store_resource_name" (VStr unknown);
  Ok (<["exists" := VBool true]>
      (<["expired" := VBool false]>
      (<["created_time" := created_time]>
      (<["age_hours" := VFloat age_hours]>
      (<["total_files" := total_files]>
      (<["store_resource_name" := store_resource_name]> ∅)))))).

(** What [get_index_info] returns or raises.  The existence test is made
    before the [try]. *)
Definition get_index_info (file : pointer_file) (current_time : Q)
    : result (gmap string value) :=
  there ← exists_ file;
  if negb there then Ok (not_found msg_index_missing)
  else
    match index_info_try file current_time with
    | Ok info => Ok info
    | Raise e => Ok (not_found (msg_read_failed ++ exn_str e))
    end.

(** *** [GeminiEngine.build_index] *)

(** An entry of the source directory: its name, and whether
    [open(file_path, 'rb')] succeeds on it. *)
Record DirEntry := {
  entry_name : pystr;
  entry_opens : bool
}.

(** [s.endswith(suffix)] *)
Definition endswith (s suffix : pystr) : bool :=
  bool_decide (drop (length s - length suffix) s = suffix).

(** [list(data_path.glob("*.txt"))] *)
Definition glob_txt (data_dir : list DirEntry) : list DirEntry :=
  filter (λ e, endswith (entry_name e) (py ".txt") = true) data_dir.

(** [int(x)] on a float: truncation towards zero. *)
Definition int_of_float (q : Q) : Z := (Qnum q ÷ Z.pos (Qden q))%Z.

(** [f'fsc-penalty-cases-{int(time.time())}'] *)
Definition store_display_name (now : Q) : pystr :=
  py ("fsc-penalty-cases-" +:+ pretty (int_of_float now)).

(** [file_info[key]] *)
Definition getitem (v : value) (k : string) : result value :=
  match v with
  | VDict d => if d !! k is Some x then Ok x else Raise KeyError
  | _ => Raise TypeError
  end.

(** Step 2a, [for i, file_path in enumerate(txt_files, 1)]: a file that
    cannot be opened or whose upload raises is logged and passed over.  The
    progress lines and the pacing sleeps change no data and are left
    out. *)
Fixpoint upload_loop (provider : Provider) (i : nat)
    (txt_files : list DirEntry) (uploaded_files : list value)
    : list value :=
  match txt_files with
  | [] => uploaded_files
  | file_path :: rest =>
      let attempt :=
        if entry_opens file_path
        then upload provider i (entry_name file_path)
        else Raise OSError in
      let uploaded_files' :=
        match attempt with
        | Ok file_obj_name =>
            uploaded_files ++
              [VDict (<["display_name" := VStr (entry_name file_path)]>
                      (<["file_name" := file_obj_name]> ∅))]
        | Raise _ => uploaded_files
        end in
      upload_loop provider (S i) rest uploaded_files'
  end.

(** Step 2b, [for i, file_info in enumerate(uploaded_files, 1)]. *)
Fixpoint import_loop (provider : Provider) (store : value) (i : nat)
    (uploaded_files : list value) (import_count : nat) : nat :=
  match uploaded_files with
  | [] => import_count
  | file_info :: rest =>
      let attempt :=
        file_name ← getitem file_info "file_name";
        import_file provider i store file_name in
      let import_count' :=
        match attempt with
        | Ok _ => S import_count
        | Raise _ => import_count
        end in
      import_loop provider store (S i) rest import_count'
  end.

(** The three counts a run logs: files found, uploaded, imported. *)
Record BuildLog := {
  found_count : nat;
  uploaded_count : nat;
  import_count : nat
}.

(** [build_index] returns (here with the counts it logged) or raises, and
    leaves the adapter and the pointer file changed.  [create_time] is the
    clock when the store is named, [save_time] and [save_time_str] the
    clock and its formatted form when the pointer is written.  The outer
    [except] clause logs and raises again. *)
Definition build_index (self : GeminiEngine) (data_dir : list DirEntry)
    (provider : Provider) (create_time save_time : Q)
    (save_time_str : pystr) (d : disk) (file : pointer_file)
    : result BuildLog * GeminiEngine * pointer_file :=
  match create provider (store_display_name create_time) with
  | Raise e => (Raise e, self, file)
  | Ok name =>
      let self1 := set_store_resource_name self name in
      let txt_files := glob_txt data_dir in
      let uploaded_files := upload_loop provider 1 txt_files [] in
      let uploaded_count := length uploaded_files in
      let import_count :=
        import_loop provider (store_resource_name self1) 1 uploaded_files 0 in
      match _save_store_info (store_resource_name self1) uploaded_files
              save_time save_time_str d file with
      | (Raise e, file') => (Raise e, self1, file')
      | (Ok _, file') =>
          (Ok {| found_count := length txt_files;
                 uploaded_count := uploaded_count;
                 import_count := import_count |},
           set_initialized self1 true, file')
      end
  end.
End Model.

(** ** The adapter and its pointer file as a state machine *)

Record World := {
  engine : GeminiEngine;
  file : pointer_file
}.

(** One thing that happens to an adapter and its pointer file: a call of one
    of the adapter's methods, with what the environment answers during the
    call, or a change of the file by someone else. *)
Inductive operation :=
| OpBuild (data_dir : list DirEntry) (provider : Provider)
    (create_time save_time : Q) (save_time_str : pystr) (d : disk)
| OpLoad
| OpQuery (question : pystr) (provider : Provider) (start_time end_time : Q)
| OpInfo (current_time : Q)
| OpOutside (new_file : pointer_file).

(** [query] and [get_index_info] assign nothing. *)
Definition step (w : World) (op : operation) : World :=
  match op with
  | OpBuild data_dir provider create_time save_time save_time_str d =>
      let '(_, self', file') :=
        build_index (engine w) data_dir provider create_time save_time
          save_time_str d (file w) in
      {| engine := self'; file := file' |}
  | OpLoad =>
      {| engine := (load_corpus_info (engine w) (file w)).2; file := file w |}
  | OpQuery _ _ _ _ => w
  | OpInfo _ => w
  | OpOutside new_file => {| engine := engine w; file := new_file |}
  end.

Definition run (w : World) (ops : list operation) : World :=
  foldl step w ops.

Definition is_ok {A} (r : result A) : bool :=
  match r with Ok _ => true | Raise _ => false end.

(** The operation is a [build_index] that returns, or a [load_corpus_info]
    that returns [True]. *)
Definition succeeds_build_or_load (w : World) (op : operation) : bool :=
  match op with
  | OpBuild data_dir provider create_time save_time save_time_str d =>
      is_ok (build_index (engine w) data_dir provider create_time save_time
               save_time_str d (file w)).1.1
  | OpLoad =>
      match (load_corpus_info (engine w) (file w)).1 with
      | Ok b => b
      | Raise _ => false
      end
  | _ => false
  end.

(** No operation of the run is a successful build or load. *)
Fixpoint no_build_or_load (w : World) (ops : list operation) : bool :=
  match ops with
  | [] => true
  | op :: rest =>
      negb (succeeds_build_or_load w op) && no_build_or_load (step w op) rest
  end.

(** ** The design document's wording *)

(** The grounding chunks of a response: those of the grounding metadata of
    its first candidate, none when any of the three is missing. *)
Definition response_chunks (response : Response) : list GroundingChunk :=
  match candidates response with
  | Attr (Some (candidate :: _)) =>
      match grounding_metadata candidate with
      | Attr (Some metadata) =>
          match grounding_chunks metadata with
          | Attr (Some chunks) => chunks
          | _ => []
          end
      | _ => []
      end
  | _ => []
  end.

(** The test of the loop, [hasattr(chunk, 'retrieved_context')]: the chunk
    has the attribute, whatever the attribute holds. *)
Definition has_retrieved_context (chunk : GroundingChunk) : bool :=
  hasattr (retrieved_context chunk).



Section Wording.
Variable rnd : Q → Q.

(** The estimate as the design document words it, over the two lengths
    and the two per-million-token prices. *)
Definition cost_formula (input_len output_len : Z)
    (input_price output_price : Q) : Q :=
  fadd rnd
    (fmul rnd (fdiv rnd (fmul rnd (of_int rnd input_len) (lit rnd (15 # 10)))
                     (of_int rnd 1000000))
          input_price)
    (fmul rnd (fdiv rnd (fmul rnd (of_int rnd output_len) (lit rnd (15 # 10)))
                     (of_int rnd 1000000))
          output_price).

(** The configured price, or the default when the key is not configured. *)
Definition configured_price (pricing : gmap string Q) (key : string)
    (dflt : Q) : Q :=
  match pricing !! key with
  | Some p => p
  | None => dflt
  end.





(** The answer text of a response: its [text], or what [str] prints of a
    response without the attribute. *)
Definition answer_text (response : Response) : option pystr :=
  match response_text response with
  | Attr t => t
  | Absent => Some (response_str response)
  end.
End Wording.

(** Whether the [i]-th upload attempt, on entry [e], succeeds. *)
Definition upload_succeeds (provider : Provider) (i : nat) (e : DirEntry)
    : bool :=
  entry_opens e && is_ok (upload provider i (entry_name e)).

(** The number of entries whose upload succeeds, the first attempt being the
    [i]-th. *)
Fixpoint count_uploads (provider : Provider) (i : nat)
    (txt_files : list DirEntry) : nat :=
  match txt_files with
  | [] => 0
  | e :: rest =>
      (if upload_succeeds provider i e then 1 else 0)
      + count_uploads provider (S i) rest
  end.

(** The length of the [files] list of a pointer document, when it has one. *)
Definition files_count (file : pointer_file) : option nat :=
  match file with
  | Document (VDict d) =>
      match d !! "files" with
      | Some (VList l) => Some (length l)
      | _ => None
      end
  | _ => None
  end.



(** Exact arithmetic: the rounding that changes nothing. *)
Definition exact : Q → Q := λ q, q.


(** ** The status of the adapter, [base.py] *)

(** The dictionary [get_status] returns, with its three fixed keys
    ['engine_name'], ['initialized'] and ['config']. *)
Record Status := {
  status_engine_name : string;
  status_initialized : bool;
  status_config : Config
}.

(** [RAGEngine.get_status] *)
Definition get_status (self : GeminiEngine) : Status :=
  {| status_engine_name := class_name self;
     status_initialized := _initialized self;
     status_config := config self |}.

(** [RAGEngine.__repr__], [f"{self.engine_name}(initialized={self._initialized})"] *)
Definition __repr__ (self : GeminiEngine) : pystr :=
  py (class_name self) ++ py "(initialized=" ++
  py (if _initialized self then "True" else "False") ++ py ")".

(** ** The configuration loader, [utils/config_loader.py]

    The loader never looks into the documents it loads: their type is a
    parameter.  A file of the configuration directory is not there, or
    cannot be opened, or is not YAML, or holds a document. *)

Inductive yaml_file (A : Type) :=
| YamlMissing
| YamlUnreadable
| YamlMalformed
| YamlDocument (doc : A).
Arguments YamlMissing {A}.
Arguments YamlUnreadable {A}.
Arguments YamlMalformed {A}.
Arguments YamlDocument {A} doc.

(** What [load_config] raises: [FileNotFoundError] for the path it looked
    at, or what [open] and [yaml.safe_load] raise. *)
Inductive config_exn :=
| FileNotFoundError (dir config_file : string)
| PermissionError
| YAMLError.

Inductive loaded (A : Type) :=
| Loaded (a : A)
| LoadRaises (e : config_exn).
Arguments Loaded {A} a.
Arguments LoadRaises {A} e.

Record ConfigLoader (A : Type) := {
  config_dir : string;
  _configs : gmap string A
}.
Arguments config_dir {A} _.
Arguments _configs {A} _.

Section Loader.
Context {A : Type}.
(** The file system: the file that [Path(dir) / name] is. *)
Variable fs : string → string → yaml_file A.

(** [ConfigLoader.__init__] *)
Definition ConfigLoader_init (dir : string) : ConfigLoader A :=
  {| config_dir := dir; _configs := ∅ |}.

(** [ConfigLoader.load_config]: the value returned or the exception raised,
    and the loader afterwards. *)
Definition load_config (self : ConfigLoader A) (config_file : string)
    : loaded A * ConfigLoader A :=
  match fs (config_dir self) config_file with
  | YamlMissing =>
      (LoadRaises (FileNotFoundError (config_dir self) config_file), self)
  | YamlUnreadable => (LoadRaises PermissionError, self)
  | YamlMalformed => (LoadRaises YAMLError, self)
  | YamlDocument doc =>
      (Loaded doc,
       {| config_dir := config_dir self;
          _configs := <[config_file := doc]> (_configs self) |})
  end.




(** [ConfigLoader.get_config] *)
Definition get_config (self : ConfigLoader A) (config_name : string)
    : loaded A * ConfigLoader A :=
  match _configs self !! config_name with
  | None => load_config self config_name
  | Some doc => (Loaded doc, self)
  end.

(** [get_config_loader]: the module's global [_config_loader_instance]
    before, the instance returned and the global after.  The instance is the
    object the global refers to: what a method does to it, it does to the
    global. *)
Definition get_config_loader (instance : option (ConfigLoader A))
    : ConfigLoader A * option (ConfigLoader A) :=
  match instance with
  | None => let l := ConfigLoader_init "config" in (l, Some l)
  | Some l => (l, Some l)
  end.
End Loader.

(** "環境變數 " *)
Definition msg_env_var : pystr := [29872; 22659; 35722; 25976; 32]%N.
(** " 未設置。\n請在 .env 檔案中設置或執行: export " *)
Definition msg_env_unset : pystr :=
  [32; 26410; 35373; 32622; 12290; 10; 35531; 22312; 32; 46; 101; 110; 118;
   32; 27284; 26696; 20013; 35373; 32622; 25110; 22519; 34892; 58; 32; 101;
   120; 112; 111; 114; 116; 32]%N.

(** [ConfigLoader.get_api_key] *)
Definition get_api_key (environ : gmap string pystr) (env_var : string)
    : result pystr :=
  let api_key := environ !! env_var in
  if negb (str_truthy api_key)
  then Raise (ValueError (msg_env_var ++ py env_var ++ msg_env_unset ++
                          py env_var ++ py "=your_api_key"))
  else Ok (default [] api_key).

(** ** The start-up of the application, [main_deploy.py] *)

(** [initialize_gemini_engine] returns the adapter, or reports the exception
    on the page and stops the script. *)
Inductive startup :=
| Started (gemini_engine : GeminiEngine)
| Stopped (e : config_exn + exn).

(** [GeminiEngine(gemini_config)] on what [yaml.safe_load] returned: a
    mapping, read as a [Config], or something else ([None] for an empty
    file, a scalar, a list), on which [config.get] raises. *)
Definition GeminiEngine_of (gemini_config : option Config)
    (environ : gmap string pystr) : result GeminiEngine :=
  match gemini_config with
  | Some cfg => __init__ cfg environ
  | None => Raise AttributeError
  end.

(** [initialize_gemini_engine]: the outcome and the loader instance of the
    module afterwards.  A document of the configuration directory is a
    mapping ([Some]) or not ([None]).  The adapter is returned whether or
    not a pointer was loaded; what [load_corpus_info] raises stops the
    script like any other exception.  (The [st.cache_resource] decorator,
    which keeps the result for later runs of the script, is not
    modelled.) *)
Definition initialize_gemini_engine
    (fs : string → string → yaml_file (option Config))
    (instance : option (ConfigLoader (option Config)))
    (environ : gmap string pystr) (file : pointer_file)
    : startup * option (ConfigLoader (option Config)) :=
  let '(config_loader, _) := get_config_loader instance in
  match load_config fs config_loader "gemini_config.yaml" with
  | (LoadRaises e, config_loader') => (Stopped (inl e), Some config_loader')
  | (Loaded gemini_config, config_loader') =>
      match GeminiEngine_of gemini_config environ with
      | Raise e => (Stopped (inr e), Some config_loader')
      | Ok gemini_engine =>
          match load_corpus_info gemini_engine file with
          | (Raise e, _) => (Stopped (inr e), Some config_loader')
          | (Ok _, gemini_engine') =>
              (Started gemini_engine', Some config_loader')
          end
      end
  end.

(** ** Further wording *)

(** The pointer file holds a JSON object with a store name that is true. *)
Definition pointer_usable (file : pointer_file) : bool :=
  match file with
  | Document (VDict d) => truthy (dict_get d "store_resource_name")
  | _ => false
  end.

(** The pointer file holds a JSON object whose [created_at], if it has one,
    is a number that a float can hold: a float, a boolean, or an integer
    that is not too large. *)
Definition pointer_dated (file : pointer_file) : bool :=
  match file with
  | Document (VDict d) =>
      match d !! "created_at" with
      | None | Some (VBool _) | Some (VFloat _) => true
      | Some (VInt z) => int_fits_float z
      | Some _ => false
      end
  | _ => false
  end.

(** The generation section is missing or a mapping: the mapping. *)
Definition generation_mapping (self : GeminiEngine)
    : option (gmap string value) :=
  match cfg_generation (config self) with
  | None => Some ∅
  | Some (VDict d) => Some d
  | Some _ => None
  end.

(** The request of [question] with the generation parameters of the
    mapping, 0.1, 2000 and the empty string standing in for the missing
    ones. *)
Definition request_of (rnd : Q → Q) (self : GeminiEngine)
    (generation_config : gmap string value) (question : pystr)
    : GenerateRequest :=
  {| req_model := model_name self;
     req_contents := question;
     req_file_search_store_names := [store_resource_name self];
     req_temperature :=
       default (VFloat (rnd (1 # 10))) (generation_config !! "temperature");
     req_max_output_tokens :=
       default (VInt 2000) (generation_config !! "max_output_tokens");
     req_system_instruction :=
       default (VStr []) (generation_config !! "system_instruction") |}.

(** What [query] makes of the answer to its call: the exception of the
    provider, the [TypeError] of a reply whose text is [None], the
    exception of the cost estimate, or the response. *)
Definition respond (rnd : Q → Q) (self : GeminiEngine) (question : pystr)
    (start_time end_time : Q) (reply : result Response)
    : result RAGResponse :=
  response ← reply;
  answer ← (if answer_text response is Some a then Ok a else Raise TypeError);
  cost ← estimate_cost_call rnd (pricing self) question answer;
  Ok {| answer := answer;
        sources := _extract_sources rnd response;
        confidence := default_confidence rnd;
        latency := _calculate_latency rnd start_time end_time;
        cost_estimate := cost;
        engine_name := gemini_engine_name;
        response_metadata := None |}.

(** The [display_name] of a file record of the pointer. *)
Definition record_display_name (file_info : value) : option pystr :=
  match file_info with
  | VDict d =>
      match d !! "display_name" with
      | Some (VStr s) => Some s
      | _ => None
      end
  | _ => None
  end.

(** ** Sample inputs *)

Definition sample_pricing : gmap string Q :=
  <["input_price" := (1 # 10)%Q]> (<["output_price" := (4 # 10)%Q]> ∅).

(** The same prices as the section of a configuration file. *)
Definition sample_price_section : value :=
  VDict (<["input_price" := VFloat (1 # 10)%Q]>
         (<["output_price" := VFloat (4 # 10)%Q]> ∅)).

Definition sample_config : Config :=
  {| cfg_api_key_env := None; cfg_model := None;
     cfg_pricing := Some sample_price_section; cfg_generation := None |}.

Definition sample_environ : gmap string pystr :=
  <["GEMINI_API_KEY" := py "secret"]> ∅.

(** The adapter right after construction. *)
Definition fresh_engine : GeminiEngine :=
  {| config := sample_config; class_name := "GeminiEngine";
     _initialized := false; model_name := py "gemini-2.0-flash-001";
     store_name := VNone; store_resource_name := VNone;
     pricing := sample_price_section |}.

Definition sample_store : value := VStr (py "fileSearchStores/cases").

(** The adapter after a pointer to [sample_store] was loaded. *)
Definition ready_engine : GeminiEngine :=
  set_initialized (set_store_resource_name fresh_engine sample_store) true.

(** The chunk of the design document's example. *)
Definition chunk_A : GroundingChunk :=
  {| retrieved_context :=
       Attr (Some {| title := Attr (Some (py "A.txt")); uri := Absent;
                     text := Attr (Some (py "hello")) |});
     chunk_score := Absent |}.

(** A chunk with no title, named by its URI, with a score. *)
Definition chunk_B : GroundingChunk :=
  {| retrieved_context :=
       Attr (Some {| title := Attr None; uri := Attr (Some (py "gs://docs/B.txt"));
                     text := Absent |});
     chunk_score := Attr (1 # 2)%Q |}.

(** A chunk whose title is the empty string. *)
Definition chunk_untitled : GroundingChunk :=
  {| retrieved_context :=
       Attr (Some {| title := Attr (Some []); uri := Attr (Some (py "C.txt"));
                     text := Attr (Some []) |});
     chunk_score := Absent |}.

(** A chunk that has the attribute with [None] in it. *)
Definition chunk_none : GroundingChunk :=
  {| retrieved_context := Attr None; chunk_score := Absent |}.

(** A chunk without the attribute. *)
Definition chunk_web : GroundingChunk :=
  {| retrieved_context := Absent; chunk_score := Absent |}.

Definition response_with (answer : option pystr)
    (chunks : attr (option (list GroundingChunk))) : Response :=
  {| response_text := Attr answer;
     candidates :=
       Attr (Some [ {| grounding_metadata :=
                         Attr (Some {| grounding_chunks := chunks |}) |} ]);
     response_str := py "<response>" |}.

(** A reply with an answer and no grounding metadata. *)
Definition ungrounded_response : Response :=
  {| response_text := Attr (Some (py "no idea"));
     candidates := Attr (Some [ {| grounding_metadata := Attr None |} ]);
     response_str := py "<response>" |}.

(** A provider whose store is [sample_store], which accepts every upload
    and import, and answers every question with [response]. *)
Definition provider_answering (response : Response) : Provider :=
  {| create := λ _, Ok sample_store;
     upload := λ i name, Ok (VStr (py "files/" ++ name));
     import_file := λ _ _ _, Ok ();
     validate := λ _, None;
     generate_content := λ _, Ok response |}.

(** A provider that fails the test as soon as it is called. *)
Definition forbidden_provider : Provider :=
  {| create := λ _, Raise (ProviderError (py "called"));
     upload := λ _ _, Raise (ProviderError (py "called"));
     import_file := λ _ _ _, Raise (ProviderError (py "called"));
     validate := λ _, None;
     generate_content := λ _, Raise (ProviderError (py "called")) |}.

(** A pointer as [_save_store_info] writes it. *)
Definition sample_files : list value :=
  [ VDict (<["display_name" := VStr (py "case1.txt")]>
           (<["file_name" := VStr (py "files/case1.txt")]> ∅)) ].

Definition sample_pointer : pointer_file :=
  Document (VDict (info_data sample_store sample_files 1700000000
                     (py "2023-11-14 22:13:20"))).

(** A pointer somebody emptied. *)
Definition empty_pointer : pointer_file := Document (VDict ∅).

(** A source directory with two documents and one file of another kind. *)
Definition sample_dir : list DirEntry :=
  [ {| entry_name := py "case1.txt"; entry_opens := true |};
    {| entry_name := py "notes.md"; entry_opens := true |};
    {| entry_name := py "case2.txt"; entry_opens := true |} ].

(** A provider that takes every upload and refuses the import of the second
    uploaded file. *)
Definition provider_refusing_second_import : Provider :=
  {| create := λ _, Ok sample_store;
     upload := λ i name, Ok (VStr (py "files/" ++ name));
     import_file := λ i _ _,
       if decide (i = 2) then Raise (ProviderError (py "quota")) else Ok ();
     validate := λ _, None;
     generate_content := λ _, Raise (ProviderError (py "not asked")) |}.

(** A configuration directory with the adapter's file alone. *)
Definition sample_fs : string → string → yaml_file (option Config) :=
  λ dir config_file,
    if decide (dir = "config" ∧ config_file = "gemini_config.yaml")
    then YamlDocument (Some sample_config)
    else YamlMissing.

(** A configuration directory whose file for the adapter is empty. *)
Definition blank_fs : string → string → yaml_file (option Config) :=
  λ dir config_file,
    if decide (dir = "config" ∧ config_file = "gemini_config.yaml")
    then YamlDocument None
    else YamlMissing.

(** The reply of the library when the provider returns nothing: no
    candidates and no text. *)
Definition empty_reply : Response :=
  {| response_text := Attr None; candidates := Attr None;
     response_str := py "<response>" |}.

(** A library that accepts a request only when its store names are
    strings. *)
Definition strict_provider (response : Response) : Provider :=
  {| create := λ _, Ok sample_store;
     upload := λ i name, Ok (VStr (py "files/" ++ name));
     import_file := λ _ _ _, Ok ();
     validate := λ request,
       if forallb (λ v, if v is VStr _ then true else false)
            (req_file_search_store_names request)
       then None else Some (py "file_search_store_names: str expected");
     generate_content := λ _, Ok response |}.

(** A pointer whose store name is a number. *)
Definition numbered_pointer : pointer_file :=
  Document (VDict (<["store_resource_name" := VInt 123]> ∅)).

(** A pointer whose creation time no float can hold. *)
Definition overdated_pointer : pointer_file :=
  Document (VDict (<["store_resource_name" := sample_store]>
                   (<["created_at" := VInt (10 ^ 400)]> ∅))).

(** A disk without any file. *)
Definition empty_fs : string → string → yaml_file (option Config) :=
  λ _ _, YamlMissing.

(** A directory without documents. *)
Definition other_dir : list DirEntry :=
  [ {| entry_name := py "notes.md"; entry_opens := true |};
    {| entry_name := py "txt"; entry_opens := true |} ].

(** The payload of [chunk_B]. *)
Definition context_B : RetrievedContext :=
  {| title := Attr None; uri := Attr (Some (py "gs://docs/B.txt"));
     text := Absent |}.

(** * Properties *)

(** ** The cost estimate *)

Section CostFormula.
Variable rnd : Q → Q.

Lemma configured_price_default (pricing : gmap string Q) key dflt :
  default dflt (pricing !! key) = configured_price pricing key dflt.
Proof. unfold configured_price. by destruct (pricing !! key). Qed.

(** C5.  For every input text, output text and pricing configuration the
    estimate is [(len(input) * 1.5 / 1,000,000) * input_price +
    (len(output) * 1.5 / 1,000,000) * output_price], the prices being the
    configured ones, 0.075 and 0.30 standing in for a price that is not
    configured. *)
Theorem estimate_cost_is_formula (pricing : gmap string Q)
    (input_text output_text : pystr) :
  _estimate_cost rnd pricing input_text output_text =
  cost_formula rnd (len input_text) (len output_text)
    (configured_price pricing "input_price" (lit rnd (75 # 1000)))
    (configured_price pricing "output_price" (lit rnd (30 # 100))).
Proof.
  unfold _estimate_cost, cost_formula.
  rewrite !configured_price_default.
  reflexivity.
Qed.
End CostFormula.

(** In exact arithmetic the estimate is three two-millionths of the sum of
    length times price. *)
(** On a pricing section that maps its keys to floats, the call is the
    estimate. *)
Lemma estimate_cost_call_numbers (rnd : Q → Q) (pricing : gmap string Q)
    (i o : pystr) :
  estimate_cost_call rnd (VDict (VFloat <$> pricing)) i o =
  Ok (_estimate_cost rnd pricing i o).
Proof.
  unfold estimate_cost_call, _estimate_cost. simpl. unfold dict_get_or.
  rewrite !lookup_fmap.
  destruct (pricing !! "input_price"), (pricing !! "output_price"); simpl;
    by simplify_map_eq.
Qed.

Lemma estimate_cost_exact (pricing : gmap string Q) (i o : pystr) :
  (_estimate_cost exact pricing i o ==
   (3 # 2000000) *
   (inject_Z (len i) * configured_price pricing "input_price" (75 # 1000) +
    inject_Z (len o) * configured_price pricing "output_price" (30 # 100)))%Q.
Proof.
  unfold _estimate_cost, default_input_price, default_output_price.
  rewrite !configured_price_default.
  unfold fadd, fmul, fdiv, of_int, lit, exact.
  field.
Qed.

Section CostMonotone.
Variable rnd : Q → Q.
(** Rounding keeps the order, and zero is a float. *)
Hypothesis rnd_monotone : ∀ x y, (x <= y)%Q → (rnd x <= rnd y)%Q.
Hypothesis rnd_zero : (rnd 0 == 0)%Q.

Lemma lit_nonneg q : (0 <= q)%Q → (0 <= lit rnd q)%Q.
Proof.
  intros Hq. unfold lit.
  apply Qle_trans with (rnd 0).
  - rewrite rnd_zero. apply Qle_refl.
  - by apply rnd_monotone.
Qed.

Lemma of_int_nonneg z : (0 <= z)%Z → (0 <= of_int rnd z)%Q.
Proof.
  intros Hz. unfold of_int.
  apply Qle_trans with (rnd 0).
  - rewrite rnd_zero. apply Qle_refl.
  - apply rnd_monotone. change 0%Q with (inject_Z 0). by rewrite <- Zle_Qle.
Qed.

Lemma of_int_monotone z1 z2 :
  (z1 <= z2)%Z → (of_int rnd z1 <= of_int rnd z2)%Q.
Proof. intros Hz. apply rnd_monotone. by rewrite <- Zle_Qle. Qed.

Lemma fmul_monotone a b c :
  (a <= b)%Q → (0 <= c)%Q → (fmul rnd a c <= fmul rnd b c)%Q.
Proof. intros Hab Hc. apply rnd_monotone. by apply Qmult_le_compat_r. Qed.

Lemma fdiv_monotone a b c :
  (a <= b)%Q → (0 <= c)%Q → (fdiv rnd a c <= fdiv rnd b c)%Q.
Proof.
  intros Hab Hc. apply rnd_monotone. unfold Qdiv.
  apply Qmult_le_compat_r; [done | by apply Qinv_le_0_compat].
Qed.

Lemma fadd_monotone a b c d :
  (a <= b)%Q → (c <= d)%Q → (fadd rnd a c <= fadd rnd b d)%Q.
Proof. intros Hab Hcd. apply rnd_monotone. by apply Qplus_le_compat. Qed.

(** The share of one text in the estimate grows with its length. *)
Lemma share_monotone (s s' : pystr) price :
  length s ≤ length s' → (0 <= price)%Q →
  (fmul rnd (fdiv rnd (fmul rnd (of_int rnd (len s)) (lit rnd (15 # 10)))
               (of_int rnd 1000000)) price
   <= fmul rnd (fdiv rnd (fmul rnd (of_int rnd (len s')) (lit rnd (15 # 10)))
                  (of_int rnd 1000000)) price)%Q.
Proof.
  intros Hlen Hprice.
  apply fmul_monotone; [|done].
  apply fdiv_monotone; [|by apply of_int_nonneg].
  apply fmul_monotone; [|by apply lit_nonneg].
  apply of_int_monotone. unfold len. lia.
Qed.

Lemma price_nonneg (pricing : gmap string Q) key dflt :
  (∀ p, pricing !! key = Some p → (0 <= p)%Q) → (0 <= dflt)%Q →
  (0 <= default (lit rnd dflt) (pricing !! key))%Q.
Proof.
  intros Hcfg Hdflt. destruct (pricing !! key) as [p|]; simpl.
  - by apply Hcfg.
  - by apply lit_nonneg.
Qed.

(** C6.  With prices that are not negative, a longer input text and a
    longer output text never give a smaller estimate: the estimate is
    monotone in the two lengths, so extending either text does not
    decrease it. *)
Theorem estimate_cost_monotone (pricing : gmap string Q)
    (input_text input_text' output_text output_text' : pystr) :
  (∀ p, pricing !! "input_price" = Some p → (0 <= p)%Q) →
  (∀ p, pricing !! "output_price" = Some p → (0 <= p)%Q) →
  length input_text ≤ length input_text' →
  length output_text ≤ length output_text' →
  (_estimate_cost rnd pricing input_text output_text
   <= _estimate_cost rnd pricing input_text' output_text')%Q.
Proof.
  intros Hin Hout Hi Ho. unfold _estimate_cost.
  apply fadd_monotone; apply share_monotone; try done.
  - by apply price_nonneg.
  - by apply price_nonneg.
Qed.

(** Appending to the input or to the output is a case of it. *)
Lemma estimate_cost_extend (pricing : gmap string Q)
    (input_text output_text more_input more_output : pystr) :
  (∀ p, pricing !! "input_price" = Some p → (0 <= p)%Q) →
  (∀ p, pricing !! "output_price" = Some p → (0 <= p)%Q) →
  (_estimate_cost rnd pricing input_text output_text
   <= _estimate_cost rnd pricing (input_text ++ more_input)
        (output_text ++ more_output))%Q.
Proof.
  intros Hin Hout. unfold _estimate_cost.
  apply fadd_monotone; apply share_monotone;
    rewrite ?length_app; try lia; by apply price_nonneg.
Qed.
End CostMonotone.

Lemma exact_monotone : ∀ x y, (x <= y)%Q → (exact x <= exact y)%Q.
Proof. intros x y H. exact H. Qed.

Lemma exact_zero : (exact 0 == 0)%Q.
Proof. reflexivity. Qed.

Lemma sample_pricing_nonneg key p :
  sample_pricing !! key = Some p → (0 <= p)%Q.
Proof.
  unfold sample_pricing. intros H.
  destruct (decide (key = "input_price")) as [->|].
  { rewrite lookup_insert_eq in H. by inversion H. }
  rewrite lookup_insert_ne in H by done.
  destruct (decide (key = "output_price")) as [->|].
  { rewrite lookup_insert_eq in H. by inversion H. }
  rewrite lookup_insert_ne in H by done.
  by rewrite lookup_empty in H.
Qed.

Lemma estimate_cost_monotone_witness :
  (_estimate_cost exact sample_pricing (py "why") (py "because")
   <= _estimate_cost exact sample_pricing (py "why so") (py "because of it"))%Q.
Proof.
  apply (estimate_cost_monotone exact exact_monotone exact_zero sample_pricing).
  - apply sample_pricing_nonneg.
  - apply sample_pricing_nonneg.
  - simpl. lia.
  - simpl. lia.
Defined.

(** ** Citation extraction *)

Section Extraction.
Variable rnd : Q → Q.



Lemma extract_sources_chunks response :
  _extract_sources rnd response =
  extract_loop rnd 0 (response_chunks response) [].
Proof.
  unfold _extract_sources, extract_try, response_chunks.
  destruct (candidates response) as [|[[|candidate ?]|]]; try reflexivity.
  destruct (grounding_metadata candidate) as [|[metadata|]]; try reflexivity.
  destruct (grounding_chunks metadata) as [|[[|? ?]|]]; reflexivity.
Qed.




Lemma extract_sources_no_chunks response :
  response_chunks response = [] → _extract_sources rnd response = [].
Proof. intros H. by rewrite extract_sources_chunks, H. Qed.
End Extraction.



(** A title that is the empty string counts as no title, and a payload that
    is [None] as a payload without fields. *)
Example extract_sources_empty_fields :
  _extract_sources exact
    (response_with None (Attr (Some [chunk_untitled; chunk_none]))) =
  [ {| filename := py "C.txt"; snippet := []; score := 1%Q;
       metadata := Some (<["type" := VStr (py "file_search")]>
                         (<["index" := VInt 0]> ∅)) |};
    {| filename := placeholder_filename; snippet := []; score := 1%Q;
       metadata := Some (<["type" := VStr (py "file_search")]>
                         (<["index" := VInt 1]> ∅)) |} ].
Proof. reflexivity. Qed.

(** Only the first 500 characters of a text are kept. *)
Example extract_sources_long_text :
  let long := {| retrieved_context :=
                   Attr (Some {| title := Absent; uri := Absent;
                                 text := Attr (Some (replicate 600 120%N)) |});
                 chunk_score := Absent |} in
  snippet <$> _extract_sources exact (response_with None (Attr (Some [long])))
  = [replicate 500 120%N].
Proof. reflexivity. Qed.

Example extract_sources_example :
  _extract_sources exact (response_with None (Attr (Some [chunk_A; chunk_web; chunk_B]))) =
  [ {| filename := py "A.txt"; snippet := py "hello"; score := 1%Q;
       metadata := Some (<["type" := VStr (py "file_search")]>
                         (<["index" := VInt 0]> ∅)) |};
    {| filename := py "B.txt"; snippet := []; score := (1 # 2)%Q;
       metadata := Some (<["type" := VStr (py "file_search")]>
                         (<["index" := VInt 2]> ∅)) |} ].
Proof. reflexivity. Qed.

(** ** The state machine *)

Lemma init_uninitialized cfg environ self :
  __init__ cfg environ = Ok self →
  _initialized self = false ∧ store_resource_name self = VNone.
Proof.
  unfold __init__. destruct (negb _); [done|].
  intros [= <-]. done.
Qed.

(** [load_corpus_info] on each kind of pointer file. *)
Lemma load_corpus_info_cases self f :
  load_corpus_info self f =
  match f with
  | Unsearchable => (Raise OSError, self)
  | Document (VDict d) =>
      if truthy (dict_get d "store_resource_name")
      then (Ok true,
            set_initialized
              (set_store_resource_name self (dict_get d "store_resource_name"))
              true)
      else (Ok false,
            set_store_resource_name self (dict_get d "store_resource_name"))
  | _ => (Ok false, self)
  end.
Proof.
  unfold load_corpus_info.
  destruct f as [| | | |v]; try done. destruct v; try done. simpl.
  unfold dict_get_or, dict_get.
  by destruct (truthy (default VNone (d !! "store_resource_name"))).
Qed.

Lemma load_false_keeps_flag self f :
  (load_corpus_info self f).1 ≠ Ok true →
  _initialized (load_corpus_info self f).2 = _initialized self.
Proof.
  rewrite load_corpus_info_cases.
  destruct f as [| | | |v]; try done. destruct v; try done.
  by destruct (truthy _).
Qed.

Lemma load_true_initialized self f :
  (load_corpus_info self f).1 = Ok true →
  _initialized (load_corpus_info self f).2 = true ∧
  truthy (store_resource_name (load_corpus_info self f).2) = true.
Proof.
  rewrite load_corpus_info_cases.
  destruct f as [| | | |v]; try done. destruct v; try done.
  by destruct (truthy _) eqn:Hname.
Qed.

Lemma build_raise_keeps_flag self data_dir provider t1 t2 ts d f :
  is_ok (build_index self data_dir provider t1 t2 ts d f).1.1 = false →
  _initialized (build_index self data_dir provider t1 t2 ts d f).1.2
  = _initialized self.
Proof.
  unfold build_index.
  destruct (create provider _) as [name|e]; [|done].
  destruct (_save_store_info _ _ _ _ _ _) as [[?|?] ?]; done.
Qed.

Lemma step_keeps_uninitialized w op :
  _initialized (engine w) = false →
  succeeds_build_or_load w op = false →
  _initialized (engine (step w op)) = false.
Proof.
  intros Hw Hop. destruct op; simpl in *; try done.
  - pose proof (build_raise_keeps_flag _ _ _ _ _ _ _ _ Hop) as Hflag.
    destruct (build_index _ _ _ _ _ _ _ _) as [[? ?] ?]. simpl in *.
    congruence.
  - rewrite load_false_keeps_flag; [done|].
    by destruct (load_corpus_info _ _).1 as [[]|].
Qed.

Lemma run_keeps_uninitialized ops : ∀ w,
  _initialized (engine w) = false →
  no_build_or_load w ops = true →
  _initialized (engine (run w ops)) = false.
Proof.
  induction ops as [|op ops IH]; intros w Hw Hops; simpl in *; [done|].
  apply andb_true_iff in Hops as [Hop Hops].
  apply negb_true_iff in Hop.
  apply IH; [|done].
  by apply step_keeps_uninitialized.
Qed.

(** ** Queries *)

Section Query.
Variable rnd : Q → Q.

Lemma query_uninitialized self question provider t0 t1 :
  _initialized self = false →
  query rnd self question provider t0 t1 =
  (Raise (RuntimeError msg_not_initialized), []).
Proof. intros H. unfold query. by rewrite H. Qed.

(** C2.  An adapter on which, since its construction, no [build_index]
    has returned and no [load_corpus_info] has returned [True] refuses a
    query with the "not initialized" error, whatever the provider would
    answer, and makes no call to the generation endpoint. *)
Theorem query_before_pointer_refused cfg environ self f ops
    question provider t0 t1 :
  __init__ cfg environ = Ok self →
  no_build_or_load {| engine := self; file := f |} ops = true →
  query rnd (engine (run {| engine := self; file := f |} ops))
    question provider t0 t1 =
  (Raise (RuntimeError msg_not_initialized), []).
Proof.
  intros Hinit Hops.
  apply query_uninitialized, run_keeps_uninitialized; [|done].
  simpl. by apply init_uninitialized in Hinit as [? _].
Qed.

(** The two ways of a query: no call and an exception, or one call, made
    by an adapter that passed both guards with arguments that were put
    together and accepted, and what [respond] makes of the answer. *)
Lemma query_cases self question provider t0 t1 :
  (∃ e, query rnd self question provider t0 t1 = (Raise e, [])) ∨
  (∃ request,
     query rnd self question provider t0 t1 =
     (respond rnd self question t0 t1 (generate_content provider request),
      [request]) ∧
     _initialized self = true ∧
     truthy (store_resource_name self) = true ∧
     build_request rnd self question = Ok request ∧
     validate provider request = None).
Proof.
  unfold query.
  destruct (_initialized self); simpl; [|eauto].
  destruct (truthy (store_resource_name self)); simpl; [|eauto].
  destruct (build_request rnd self question) as [request|e]; simpl; [|eauto].
  destruct (validate provider request) as [msg|] eqn:Hvalid; simpl; [eauto|].
  right. exists request. by rewrite Hvalid.
Qed.

Lemma query_called self question provider t0 t1 request :
  request ∈ (query rnd self question provider t0 t1).2 →
  query rnd self question provider t0 t1 =
  (respond rnd self question t0 t1 (generate_content provider request),
   [request]) ∧
  _initialized self = true ∧
  truthy (store_resource_name self) = true ∧
  build_request rnd self question = Ok request ∧
  validate provider request = None.
Proof.
  destruct (query_cases self question provider t0 t1)
    as [[e ->]|(request' & Hq & Hrest)].
  { intros Hin. by apply elem_of_nil in Hin. }
  rewrite Hq. simpl. intros Hin. apply list_elem_of_singleton in Hin as ->.
  done.
Qed.

Lemma query_ready self question provider t0 t1 request :
  _initialized self = true →
  truthy (store_resource_name self) = true →
  build_request rnd self question = Ok request →
  validate provider request = None →
  query rnd self question provider t0 t1 =
  (respond rnd self question t0 t1 (generate_content provider request),
   [request]).
Proof.
  intros Hflag Hname Hbuild Hvalid. unfold query.
  rewrite Hflag, Hname, Hbuild. simpl. by rewrite Hvalid.
Qed.

(** C4, as the code has it.  A response without grounding chunks, or
    without grounding metadata at all, gives the empty list of citations,
    without an error; and the query whose call the provider answered with
    it returns a response with the answer text of the reply and no
    citations, unless the reply has no answer text, which is a [TypeError],
    or the cost estimate raises on the configured prices. *)
Theorem no_chunks_no_citations (response : Response) :
  response_chunks response = [] →
  _extract_sources rnd response = [] ∧
  ∀ self question provider t0 t1 request,
    (query rnd self question provider t0 t1).2 = [request] →
    generate_content provider request = Ok response →
    match answer_text response with
    | None => (query rnd self question provider t0 t1).1 = Raise TypeError
    | Some a =>
        match estimate_cost_call rnd (pricing self) question a with
        | Raise e => (query rnd self question provider t0 t1).1 = Raise e
        | Ok cost =>
            ∃ r,
              (query rnd self question provider t0 t1).1 = Ok r ∧
              answer r = a ∧ sources r = [] ∧ cost_estimate r = cost
        end
    end.
Proof.
  intros Hchunks.
  pose proof (extract_sources_no_chunks rnd _ Hchunks) as Hnone.
  split; [done|].
  intros self question provider t0 t1 request Hcall Hprovider.
  destruct (query_called self question provider t0 t1 request)
    as (Hq & _).
  { rewrite Hcall. apply list_elem_of_here. }
  rewrite Hq, Hprovider. unfold respond. simpl.
  destruct (answer_text response) as [a|]; simpl; [|done].
  destruct (estimate_cost_call rnd (pricing self) question a) as [cost|e];
    simpl; [|done].
  eexists. split; [done|]. done.
Qed.

(** C9.  Whatever the question and the provider's answer, a response that
    [query] returns has confidence 0.85 and engine name
    "Gemini File Search". *)
Theorem query_confidence_and_name self question provider t0 t1 r calls :
  query rnd self question provider t0 t1 = (Ok r, calls) →
  confidence r = lit rnd (85 # 100) ∧
  engine_name r = py "Gemini File Search".
Proof.
  destruct (query_cases self question provider t0 t1)
    as [[e ->]|(request & -> & _)]; [done|].
  unfold respond.
  destruct (generate_content provider request) as [response|e]; simpl;
    [|done].
  destruct (answer_text response) as [a|]; simpl; [|done].
  destruct (estimate_cost_call rnd (pricing self) question a); simpl;
    intros [= <- _]; done.
Qed.
End Query.

Lemma query_before_pointer_refused_witness :
  query exact
    (engine (run {| engine := fresh_engine; file := NoFile |}
               [OpInfo 0; OpLoad; OpOutside Malformed; OpLoad;
                OpBuild [] forbidden_provider 0 0 [] DiskOk;
                OpQuery (py "why") forbidden_provider 0 1]))
    (py "why") forbidden_provider 0 1 =
  (Raise (RuntimeError msg_not_initialized), []).
Proof.
  apply (query_before_pointer_refused exact sample_config sample_environ).
  - reflexivity.
  - reflexivity.
Defined.

Lemma no_chunks_no_citations_witness :
  _extract_sources exact ungrounded_response = [] ∧
  ∃ r,
    (query exact ready_engine (py "why")
       (provider_answering ungrounded_response) 0 1).1 = Ok r ∧
    answer r = py "no idea" ∧ sources r = [].
Proof.
  destruct (no_chunks_no_citations exact ungrounded_response eq_refl)
    as [Hnone Hquery].
  split; [exact Hnone|].
  destruct (Hquery ready_engine (py "why")
              (provider_answering ungrounded_response) 0%Q 1%Q _
              eq_refl eq_refl) as (r & Hr & Hanswer & Hsources & _).
  exists r. split; [exact Hr|]. split; [exact Hanswer | exact Hsources].
Defined.

(** C4, as stated, fails: the reply of the library for an answer that did
    not come, with no candidates and no text, has no grounding chunks, and
    the query that received it raises. *)
Lemma no_chunks_query_raises :
  ¬ (∀ response,
       response_chunks response = [] →
       ∀ self question provider t0 t1 request,
         (query exact self question provider t0 t1).2 = [request] →
         generate_content provider request = Ok response →
         ∃ r, (query exact self question provider t0 t1).1 = Ok r).
Proof.
  intros Hclaim.
  destruct (Hclaim empty_reply eq_refl ready_engine (py "why")
              (provider_answering empty_reply) 0%Q 1%Q _ eq_refl eq_refl)
    as [r Hr].
  discriminate Hr.
Qed.

Lemma query_confidence_and_name_witness :
  ∃ r calls,
    query exact ready_engine (py "why")
      (provider_answering (response_with (Some (py "so")) (Attr (Some [chunk_A]))))
      0 1 = (Ok r, calls) ∧
    confidence r = (85 # 100)%Q ∧
    engine_name r = py "Gemini File Search".
Proof.
  eexists _, _. split; [reflexivity|].
  apply (query_confidence_and_name exact ready_engine (py "why")
           (provider_answering
              (response_with (Some (py "so")) (Attr (Some [chunk_A]))))
           0 1 _ _ eq_refl).
Defined.

(** ** The pointer file *)

Lemma info_data_lookups name files now now_str :
  let d := info_data name files now now_str in
  d !! "store_resource_name" = Some name ∧
  d !! "created_at" = Some (VFloat now) ∧
  d !! "created_time" = Some (VStr now_str) ∧
  d !! "files" = Some (VList files) ∧
  d !! "total_files" = Some (VInt (Z.of_nat (length files))).
Proof. unfold info_data. repeat split; by simplify_map_eq. Qed.

Lemma not_found_exists message :
  not_found message !! "exists" = Some (VBool false).
Proof. unfold not_found. by simplify_map_eq. Qed.

Section Pointer.
Variable rnd : Q → Q.
Variable exn_str : exn → pystr.

Lemma index_info_found f t info :
  index_info_try rnd f t = Ok info →
  info !! "exists" = Some (VBool true).
Proof.
  unfold index_info_try.
  destruct (read_json f) as [v|]; simpl; [|done].
  destruct v; simpl; try done.
  destruct (as_float _ _) as [c|]; simpl; [|done].
  intros [= <-]. by simplify_map_eq.
Qed.

(** [get_index_info] when the existence test answers. *)
Lemma get_index_info_searchable f t :
  f ≠ Unsearchable →
  get_index_info rnd exn_str f t =
  Ok match f with
     | NoFile => not_found msg_index_missing
     | _ =>
         match index_info_try rnd f t with
         | Ok info => info
         | Raise e => not_found (msg_read_failed ++ exn_str e)
         end
     end.
Proof.
  intros Hf. unfold get_index_info.
  destruct f; try done; simpl; by destruct (index_info_try rnd _ t).
Qed.

(** C7, as the code has it.  In every state of the pointer file in which
    the existence test answers, [get_index_info] returns a dictionary with
    a boolean [exists]: the "not found" one, with [exists] false, when the
    file is missing, and again when opening, parsing or reading the
    document raises. *)
Theorem get_index_info_returns (f : pointer_file) (t : Q) :
  f ≠ Unsearchable →
  ∃ info,
    get_index_info rnd exn_str f t = Ok info ∧
    (∃ b, info !! "exists" = Some (VBool b)) ∧
    (f = NoFile → info = not_found msg_index_missing) ∧
    (∀ e, f ≠ NoFile → index_info_try rnd f t = Raise e →
          info = not_found (msg_read_failed ++ exn_str e)) ∧
    (f = NoFile ∨ f = Unreadable ∨ f = Malformed →
     info !! "exists" = Some (VBool false)).
Proof.
  intros Hf. rewrite (get_index_info_searchable f t Hf).
  eexists. split; [done|]. repeat split.
  - destruct f; try done; try (eexists; apply not_found_exists);
      (destruct (index_info_try rnd _ t) as [info|e] eqn:Htry;
       eexists; [by eapply index_info_found | apply not_found_exists]).
  - by intros ->.
  - intros e Hne Htry. rewrite Htry. by destruct f.
  - intros [->|[->| ->]]; apply not_found_exists.
Qed.

(** C8.  A pointer that [_save_store_info] wrote reads back with the store
    name that was written and with [total_files] the number of file
    records written, through [load_corpus_info] (which takes the name)
    and through [get_index_info] (which reports both). *)
Theorem pointer_round_trip (name : value) (files : list value)
    (now : Q) (now_str : pystr) (d : disk) (f0 f : pointer_file) :
  _save_store_info name files now now_str d f0 = (Ok (), f) →
  (∀ self, store_resource_name (load_corpus_info self f).2 = name) ∧
  (∀ t, ∃ info,
        get_index_info rnd exn_str f t = Ok info ∧
        info !! "exists" = Some (VBool true) ∧
        info !! "store_resource_name" = Some name ∧
        info !! "total_files" = Some (VInt (Z.of_nat (length files)))) ∧
  files_count f = Some (length files).
Proof.
  unfold _save_store_info. destruct d; try done. intros [= <-].
  destruct (info_data_lookups name files now now_str)
    as (Hname & Hat & Htime & Hfiles & Htotal).
  split; [|split].
  - intros self. rewrite load_corpus_info_cases.
    unfold dict_get. rewrite Hname. simpl.
    by destruct (truthy name).
  - intros t. unfold get_index_info, index_info_try. simpl.
    unfold dict_get_or. rewrite Hat, Htime, Htotal, Hname. simpl.
    eexists. split; [done|].
    repeat split; by simplify_map_eq.
  - unfold files_count. by rewrite Hfiles.
Qed.
End Pointer.

Lemma get_index_info_returns_witness :
  ∃ info,
    get_index_info exact (λ _, []) Malformed 0 = Ok info ∧
    info !! "exists" = Some (VBool false).
Proof.
  destruct (get_index_info_returns exact (λ _, []) Malformed 0)
    as (info & Hinfo & _ & _ & _ & Hbad); [discriminate|].
  exists info. split; [exact Hinfo|].
  apply Hbad. right. right. reflexivity.
Defined.

(** C7, as stated, fails: when the directory of the pointer file cannot be
    searched, the existence test, which is made before the [try], raises,
    and so does [get_index_info]. *)
Lemma get_index_info_raises_unsearchable :
  ¬ (∀ f t, ∃ info, get_index_info exact (λ _, []) f t = Ok info).
Proof.
  intros Hclaim. destruct (Hclaim Unsearchable 0%Q) as [info Hinfo].
  discriminate Hinfo.
Qed.

Lemma pointer_round_trip_witness :
  store_resource_name (load_corpus_info fresh_engine sample_pointer).2
  = sample_store ∧
  ∃ info,
    get_index_info exact (λ _, []) sample_pointer 1700003600 = Ok info ∧
    info !! "total_files" = Some (VInt 1).
Proof.
  destruct (pointer_round_trip exact (λ _, []) sample_store sample_files
              1700000000 (py "2023-11-14 22:13:20") DiskOk NoFile
              sample_pointer eq_refl) as (Hload & Hinfo & _).
  split.
  - apply Hload.
  - destruct (Hinfo 1700003600%Q) as (info & Hget & _ & _ & Htotal).
    exists info. split; [exact Hget | exact Htotal].
Defined.

(** ** Ingestion *)

Lemma upload_loop_length provider txt_files : ∀ i uploaded_files,
  length (upload_loop provider i txt_files uploaded_files) =
  length uploaded_files + count_uploads provider i txt_files.
Proof.
  induction txt_files as [|e rest IH]; intros i uploaded_files; simpl.
  { lia. }
  rewrite IH. unfold upload_succeeds.
  destruct (entry_opens e); simpl; [|lia].
  destruct (upload provider i (entry_name e)); simpl;
    rewrite ?length_app; simpl; lia.
Qed.

Lemma count_uploads_le provider txt_files : ∀ i,
  count_uploads provider i txt_files ≤ length txt_files.
Proof.
  induction txt_files as [|e rest IH]; intros i; simpl; [lia|].
  specialize (IH (S i)). destruct (upload_succeeds provider i e); lia.
Qed.

Lemma import_loop_le provider store uploaded_files : ∀ i n,
  import_loop provider store i uploaded_files n ≤ n + length uploaded_files.
Proof.
  induction uploaded_files as [|file_info rest IH]; intros i n; simpl; [lia|].
  destruct (_ ≫= _);
    [specialize (IH (S i) (S n)) | specialize (IH (S i) n)]; lia.
Qed.

(** C1, as the code has it.  When [build_index] returns, the [files] list of
    the pointer it wrote has one entry for each matching source document
    whose upload succeeded, whether or not its import did: no more entries
    than there are [*.txt] documents in the directory, and no fewer than
    the number of imports that succeeded. *)
Theorem build_index_pointer_counts self data_dir provider t1 t2 ts d f
    log self' f' :
  build_index self data_dir provider t1 t2 ts d f = (Ok log, self', f') →
  files_count f' = Some (count_uploads provider 1 (glob_txt data_dir)) ∧
  count_uploads provider 1 (glob_txt data_dir) ≤ length (glob_txt data_dir) ∧
  import_count log ≤ count_uploads provider 1 (glob_txt data_dir) ∧
  uploaded_count log = count_uploads provider 1 (glob_txt data_dir) ∧
  found_count log = length (glob_txt data_dir).
Proof.
  unfold build_index.
  destruct (create provider _) as [name|e]; [|done].
  unfold _save_store_info. destruct d; try done.
  intros [= <- <- <-]. simpl.
  pose proof (upload_loop_length provider (glob_txt data_dir) 1 []) as Hlen.
  simpl in Hlen.
  destruct (info_data_lookups name
              (upload_loop provider 1 (glob_txt data_dir) []) t2 ts)
    as (_ & _ & _ & Hfiles & _).
  repeat split.
  - rewrite Hfiles. by rewrite Hlen.
  - apply count_uploads_le.
  - rewrite <- Hlen.
    pose proof (import_loop_le provider name
                  (upload_loop provider 1 (glob_txt data_dir) []) 1 0).
    lia.
  - done.
Qed.

Example build_index_sample_log :
  (build_index fresh_engine sample_dir provider_refusing_second_import
     1700000000 1700000060 (py "2023-11-14 22:14:20") DiskOk NoFile).1.1
  = Ok {| found_count := 2; uploaded_count := 2; import_count := 1 |}.
Proof. reflexivity. Qed.

Lemma build_index_pointer_counts_witness :
  files_count
    (build_index fresh_engine sample_dir provider_refusing_second_import
       1700000000 1700000060 (py "2023-11-14 22:14:20") DiskOk NoFile).2
  = Some 2.
Proof.
  destruct (build_index_pointer_counts fresh_engine sample_dir
              provider_refusing_second_import 1700000000%Q 1700000060%Q
              (py "2023-11-14 22:14:20") DiskOk NoFile _ _ _ eq_refl)
    as (Hfiles & _).
  exact Hfiles.
Defined.

(** C1, as the design document has it, fails: a document that was uploaded
    and whose import was refused is in the [files] list all the same. *)
Lemma pointer_counts_imports_refuted :
  ¬ (∀ self data_dir provider t1 t2 ts d f log self' f' n,
       build_index self data_dir provider t1 t2 ts d f = (Ok log, self', f') →
       files_count f' = Some n →
       n ≤ length (glob_txt data_dir) ∧ n = import_count log).
Proof.
  intros Hclaim.
  destruct (Hclaim fresh_engine sample_dir provider_refusing_second_import
              1700000000%Q 1700000060%Q (py "2023-11-14 22:14:20") DiskOk
              NoFile _ _ _ 2 eq_refl eq_refl) as [_ Himports].
  vm_compute in Himports. discriminate Himports.
Qed.

(** ** The initialized flag and the store name *)

Lemma load_lacking_resets_name self d :
  truthy (dict_get d "store_resource_name") = false →
  load_corpus_info self (Document (VDict d)) =
  (Ok false, set_store_resource_name self (dict_get d "store_resource_name")).
Proof.
  intros Hname. by rewrite load_corpus_info_cases, Hname.
Qed.






(** The second guard of [query] is there for such an adapter. *)
Lemma query_without_store_refused rnd self question provider t0 t1 :
  _initialized self = true →
  truthy (store_resource_name self) = false →
  query rnd self question provider t0 t1 =
  (Raise (RuntimeError msg_no_store), []).
Proof. intros Hflag Hname. unfold query. by rewrite Hflag, Hname. Qed.

(** A build whose provider leaves the new store unnamed breaks it too. *)
Example build_unnamed_store_initializes :
  let provider :=
    {| create := λ _, Ok VNone;
       upload := upload (provider_answering ungrounded_response);
       import_file := λ _ _ _, Raise (ProviderError (py "no store"));
       validate := λ _, None;
       generate_content := λ _, Ok ungrounded_response |} in
  let self' :=
    (build_index fresh_engine sample_dir provider 0 0 [] DiskOk NoFile).1.2 in
  _initialized self' = true ∧ store_resource_name self' = VNone.
Proof. split; reflexivity. Qed.

(** * Further properties *)

(** ** Construction and status *)

(** X1.  Construction succeeds exactly when the environment holds a
    non-empty key under the configured variable name, ['GEMINI_API_KEY']
    when none is configured; that is exactly when [get_api_key] of the
    loader returns for that name, and then the adapter holds what the
    configuration says, with the documented defaults.  Otherwise the
    [ValueError] names the variable. *)
Theorem init_iff_api_key (cfg : Config) (environ : gmap string pystr) :
  let env_var := default "GEMINI_API_KEY" (cfg_api_key_env cfg) in
  (is_ok (__init__ cfg environ) = true ↔
   ∃ c key, environ !! env_var = Some (c :: key)) ∧
  is_ok (__init__ cfg environ) = is_ok (get_api_key environ env_var) ∧
  (is_ok (__init__ cfg environ) = false →
   __init__ cfg environ = Raise (ValueError (msg_no_api_key ++ py env_var))) ∧
  (∀ self, __init__ cfg environ = Ok self →
     config self = cfg ∧ _initialized self = false ∧
     store_resource_name self = VNone ∧
     model_name self = default (py "gemini-2.0-flash-001") (cfg_model cfg) ∧
     pricing self = default (VDict ∅) (cfg_pricing cfg)).
Proof.
  intros env_var. unfold __init__, get_api_key. fold env_var.
  destruct (environ !! env_var) as [[|c key]|] eqn:Hkey;
    cbn [str_truthy negb is_ok]; (split; [|split; [|split]]); try done.
  - split; [done|]. intros (? & ? & [=]).
  - split; [eauto|done].
  - by intros self [= <-].
  - split; [done|]. intros (? & ? & [=]).
Qed.

Lemma step_frame w op :
  config (engine (step w op)) = config (engine w) ∧
  class_name (engine (step w op)) = class_name (engine w) ∧
  model_name (engine (step w op)) = model_name (engine w) ∧
  pricing (engine (step w op)) = pricing (engine w) ∧
  store_name (engine (step w op)) = store_name (engine w).
Proof.
  destruct op; simpl; try done.
  - unfold build_index.
    destruct (create provider _) as [name|e]; [|done].
    destruct (_save_store_info _ _ _ _ _ _) as [[?|?] ?]; done.
  - rewrite load_corpus_info_cases.
    destruct (file w) as [| | | |v]; try done. destruct v; try done.
    by destruct (truthy _).
Qed.

Lemma run_frame ops : ∀ w,
  config (engine (run w ops)) = config (engine w) ∧
  class_name (engine (run w ops)) = class_name (engine w) ∧
  model_name (engine (run w ops)) = model_name (engine w) ∧
  pricing (engine (run w ops)) = pricing (engine w) ∧
  store_name (engine (run w ops)) = store_name (engine w).
Proof.
  induction ops as [|op ops IH]; intros w; simpl; [done|].
  destruct (IH (step w op)) as (-> & -> & -> & -> & ->).
  apply step_frame.
Qed.

(** X2.  The configuration is read-only after construction: whatever
    builds, loads, queries and changes of the pointer file follow, the
    adapter reports the class name and the configuration it was built with,
    and keeps its model and its prices. *)
Theorem run_keeps_configuration cfg environ self f ops :
  __init__ cfg environ = Ok self →
  let self' := engine (run {| engine := self; file := f |} ops) in
  status_engine_name (get_status self') = "GeminiEngine" ∧
  status_config (get_status self') = cfg ∧
  model_name self' = default (py "gemini-2.0-flash-001") (cfg_model cfg) ∧
  pricing self' = default (VDict ∅) (cfg_pricing cfg).
Proof.
  intros Hinit self'. unfold get_status. simpl.
  destruct (run_frame ops {| engine := self; file := f |})
    as (Hcfg & Hclass & Hmodel & Hpricing & _).
  fold self' in Hcfg, Hclass, Hmodel, Hpricing.
  rewrite Hcfg, Hclass, Hmodel, Hpricing. simpl.
  unfold __init__ in Hinit. destruct (negb _); [done|].
  by injection Hinit as <-.
Qed.

Lemma run_keeps_configuration_witness :
  status_config
    (get_status
       (engine (run {| engine := fresh_engine; file := sample_pointer |}
                  [OpLoad; OpOutside empty_pointer; OpLoad])))
  = sample_config.
Proof.
  destruct (run_keeps_configuration sample_config sample_environ fresh_engine
              sample_pointer [OpLoad; OpOutside empty_pointer; OpLoad]
              eq_refl) as (_ & Hcfg & _).
  exact Hcfg.
Defined.

(** ** Queries *)

Section QueryMore.
Variable rnd : Q → Q.

Lemma build_request_mapping self question :
  build_request rnd self question =
  match generation_mapping self with
  | Some generation_config =>
      Ok (request_of rnd self generation_config question)
  | None => Raise AttributeError
  end.
Proof.
  unfold build_request, generation_mapping.
  destruct (cfg_generation (config self)) as [[]|]; done.
Qed.

(** X3.  [query] refuses with the "not initialized" error, without a call,
    exactly when [get_status] reports the adapter as not initialized. *)
Theorem query_refused_iff_status self question provider t0 t1 :
  query rnd self question provider t0 t1 =
  (Raise (RuntimeError msg_not_initialized), [])
  ↔ status_initialized (get_status self) = false.
Proof.
  unfold get_status, query. simpl.
  destruct (_initialized self); simpl; [|done].
  destruct (negb (truthy (store_resource_name self))); [split; done|].
  rewrite build_request_mapping.
  destruct (generation_mapping self) as [generation_config|]; simpl;
    [|split; done].
  destruct (validate provider _); split; done.
Qed.

(** X4.  A query makes one call to the generation endpoint or none, and
    none in vain: it makes one exactly when the adapter passes both guards,
    its generation section is missing or a mapping, and the library accepts
    the arguments, which are the adapter's model, the question as contents,
    the adapter's store alone, and the configured generation parameters,
    0.1, 2000 and the empty string standing in for the missing ones.  A
    query that returns has made its call. *)
Theorem query_calls self question provider t0 t1 :
  let calls := (query rnd self question provider t0 t1).2 in
  length calls ≤ 1 ∧
  (∀ request, request ∈ calls →
     req_model request = model_name self ∧
     req_contents request = question ∧
     req_file_search_store_names request = [store_resource_name self]) ∧
  (∀ request,
     calls = [request] ↔
     _initialized self = true ∧ truthy (store_resource_name self) = true ∧
     (∃ generation_config,
        generation_mapping self = Some generation_config ∧
        request = request_of rnd self generation_config question) ∧
     validate provider request = None) ∧
  (is_ok (query rnd self question provider t0 t1).1 = true →
   length calls = 1).
Proof.
  intros calls. subst calls.
  destruct (query_cases rnd self question provider t0 t1)
    as [[e Hq]|(request & Hq & Hflag & Hname & Hbuild & Hvalid)].
  - rewrite Hq. simpl. split; [lia|]. split.
    { intros request Hin. by apply elem_of_nil in Hin. }
    split; [|done].
    intros request. split; [done|].
    intros (Hflag & Hname & (generation_config & Hmap & ->) & Hvalid).
    rewrite (query_ready rnd self question provider t0 t1
               (request_of rnd self generation_config question)) in Hq;
      try done.
    by rewrite build_request_mapping, Hmap.
  - rewrite Hq. simpl.
    rewrite build_request_mapping in Hbuild.
    destruct (generation_mapping self) as [generation_config|] eqn:Hmap;
      [|done].
    injection Hbuild as <-.
    split; [lia|]. split.
    { intros request Hin. by apply list_elem_of_singleton in Hin as ->. }
    split; [|done].
    intros request. split.
    + intros [= <-]. eauto 10.
    + intros (_ & _ & (generation_config' & [= <-] & ->) & _). done.
Qed.

(** X5.  What the provider raises when called, [query] raises
    unchanged. *)
Theorem query_provider_error_propagates self question provider t0 t1
    request e :
  (query rnd self question provider t0 t1).2 = [request] →
  generate_content provider request = Raise e →
  (query rnd self question provider t0 t1).1 = Raise e.
Proof.
  intros Hcall Hprovider.
  destruct (query_called rnd self question provider t0 t1 request)
    as (Hq & _).
  { rewrite Hcall. apply list_elem_of_here. }
  by rewrite Hq, Hprovider.
Qed.

(** X6.  A reply whose [text] is [None] makes [query] raise a [TypeError]
    after the call was made, whatever citations the reply carries. *)
Theorem query_no_text_raises self question provider t0 t1 request response :
  (query rnd self question provider t0 t1).2 = [request] →
  generate_content provider request = Ok response →
  response_text response = Attr None →
  (query rnd self question provider t0 t1).1 = Raise TypeError.
Proof.
  intros Hcall Hprovider Htext.
  destruct (query_called rnd self question provider t0 t1 request)
    as (Hq & _).
  { rewrite Hcall. apply list_elem_of_here. }
  rewrite Hq, Hprovider. unfold respond, answer_text. simpl.
  by rewrite Htext.
Qed.

(** What a query asks for is the adapter's store. *)
Lemma query_scoped self question provider t0 t1 name :
  _initialized self = true →
  store_resource_name self = name → truthy name = true →
  (∀ request,
     request ∈ (query rnd self question provider t0 t1).2 →
     req_file_search_store_names request = [name] ∧
     req_contents request = question) ∧
  (∀ generation_config,
     generation_mapping self = Some generation_config →
     validate provider (request_of rnd self generation_config question)
     = None →
     (query rnd self question provider t0 t1).2 =
     [request_of rnd self generation_config question]).
Proof.
  intros Hflag <- Hname. split.
  - intros request Hin.
    destruct (query_called rnd self question provider t0 t1 request Hin)
      as (_ & _ & _ & Hbuild & _).
    rewrite build_request_mapping in Hbuild.
    destruct (generation_mapping self); [|done].
    by injection Hbuild as <-.
  - intros generation_config Hmap Hvalid.
    rewrite (query_ready rnd self question provider t0 t1
               (request_of rnd self generation_config question)); try done.
    by rewrite build_request_mapping, Hmap.
Qed.

(** X7.  After a [build_index] that returned, with a provider that named
    the store it created, a query asks for that store and no other, and
    asks once when the generation section is missing or a mapping and the
    library accepts the arguments. *)
Theorem build_then_query_scoped self data_dir provider t1 t2 ts d f
    log self' f' name question provider' t0 t3 :
  build_index self data_dir provider t1 t2 ts d f = (Ok log, self', f') →
  create provider (store_display_name t1) = Ok name →
  truthy name = true →
  (∀ request,
     request ∈ (query rnd self' question provider' t0 t3).2 →
     req_file_search_store_names request = [name] ∧
     req_contents request = question) ∧
  (∀ generation_config,
     generation_mapping self' = Some generation_config →
     validate provider' (request_of rnd self' generation_config question)
     = None →
     (query rnd self' question provider' t0 t3).2 =
     [request_of rnd self' generation_config question]).
Proof.
  unfold build_index. intros Hbuild Hcreate Hname. rewrite Hcreate in Hbuild.
  destruct (_save_store_info _ _ _ _ _ _) as [[?|?] ?]; [|done].
  injection Hbuild as _ <- _.
  by apply query_scoped.
Qed.

(** X8.  After a [load_corpus_info] that returned [True], the pointer file
    names a store, and a query asks for that store and no other, once when
    the generation section is missing or a mapping and the library accepts
    the arguments. *)
Theorem load_then_query_scoped self f self' question provider t0 t1 :
  load_corpus_info self f = (Ok true, self') →
  ∃ d name,
    f = Document (VDict d) ∧ d !! "store_resource_name" = Some name ∧
    (∀ request,
       request ∈ (query rnd self' question provider t0 t1).2 →
       req_file_search_store_names request = [name] ∧
       req_contents request = question) ∧
    (∀ generation_config,
       generation_mapping self' = Some generation_config →
       validate provider (request_of rnd self' generation_config question)
       = None →
       (query rnd self' question provider t0 t1).2 =
       [request_of rnd self' generation_config question]).
Proof.
  rewrite load_corpus_info_cases.
  destruct f as [| | | |v]; try done. destruct v; try done.
  unfold dict_get.
  destruct (d !! "store_resource_name") as [name|] eqn:Hname; simpl; [|done].
  destruct (truthy name) eqn:Htrue; [|done].
  intros [= <-].
  exists d, name. split; [done|]. split; [done|].
  by apply query_scoped.
Qed.
End QueryMore.

(** ** Citations *)

Lemma split_nonempty sep s : split sep s ≠ [].
Proof.
  destruct s as [|c s']; simpl; [done|].
  destruct (c =? sep)%N; [done|]. by destruct (split sep s').
Qed.

Lemma split_singleton sep : ∀ s w, split sep s = [w] → s = w ∧ sep ∉ w.
Proof.
  induction s as [|c s' IH]; intros w; simpl.
  - intros [= <-]. split; [done|]. apply not_elem_of_nil.
  - destruct (c =? sep)%N eqn:Hc.
    + intros [= _ Hrest]. by destruct (split_nonempty sep s').
    + apply N.eqb_neq in Hc.
      destruct (split sep s') as [|w' ws'] eqn:Hsplit;
        [by destruct (split_nonempty sep s')|].
      intros [= <- ->]. destruct (IH w' eq_refl) as [-> Hnot].
      split; [done|]. rewrite elem_of_cons. by intros [?|?].
Qed.

Lemma split_no_sep sep : ∀ s, sep ∉ s → split sep s = [s].
Proof.
  induction s as [|c s' IH]; simpl; [done|].
  rewrite not_elem_of_cons. intros [Hc Hs'].
  destruct (c =? sep)%N eqn:Heq; [apply N.eqb_eq in Heq; congruence|].
  by rewrite IH.
Qed.

(** The last segment holds no separator, and the string is the segment
    alone or ends with a separator and the segment. *)
Lemma last_segment_split sep : ∀ s,
  (sep ∉ last_segment (split sep s)) ∧
  (s = last_segment (split sep s) ∨
   ∃ p, s = p ++ sep :: last_segment (split sep s)).
Proof.
  unfold last_segment.
  induction s as [|c s' IH]; simpl.
  { split; [apply not_elem_of_nil | by left]. }
  destruct IH as [Hnot Hs'].
  destruct (c =? sep)%N eqn:Hc.
  - apply N.eqb_eq in Hc as ->.
    destruct (split sep s') as [|w ws] eqn:Hsplit;
      [by destruct (split_nonempty sep s')|].
    change (List.last ([] :: w :: ws) []) with (List.last (w :: ws) []).
    split; [done|]. right.
    destruct Hs' as [Hs'|[p Hs']].
    + exists []. cbn [app]. by rewrite <- Hs'.
    + exists (sep :: p). cbn [app]. by rewrite <- Hs'.
  - apply N.eqb_neq in Hc.
    destruct (split sep s') as [|w ws] eqn:Hsplit;
      [by destruct (split_nonempty sep s')|].
    destruct ws as [|w2 ws'].
    + destruct (split_singleton sep s' w Hsplit) as [-> Hw]. simpl.
      split; [|by left]. rewrite elem_of_cons. by intros [?|?].
    + change (List.last ((c :: w) :: w2 :: ws') [])
        with (List.last (w :: w2 :: ws') []).
      split; [done|]. right.
      destruct Hs' as [Hs'|[p Hs']].
      * rewrite (split_no_sep sep s') in Hsplit; [done|]. by rewrite Hs'.
      * exists (c :: p). cbn [app]. by rewrite <- Hs'.
Qed.

Section Citations.
Variable rnd : Q → Q.

Lemma extract_loop_Forall (P : Source → Prop) :
  (∀ i context chunk, P (make_source rnd i context chunk)) →
  ∀ chunks i sources,
    Forall P sources → Forall P (extract_loop rnd i chunks sources).
Proof.
  intros Hmake. induction chunks as [|chunk rest IH]; intros i sources Hall;
    simpl; [done|].
  apply IH. destruct (retrieved_context chunk); [done|].
  apply Forall_app. split; [done|]. by apply Forall_singleton.
Qed.

Lemma extract_loop_length chunks : ∀ i sources,
  length (extract_loop rnd i chunks sources) =
  length sources + length (filter (λ c, has_retrieved_context c) chunks).
Proof.
  induction chunks as [|chunk rest IH]; intros i sources; simpl; [lia|].
  rewrite IH, filter_cons.
  case_decide as Hcarries; unfold has_retrieved_context in Hcarries;
    destruct (retrieved_context chunk); simpl in Hcarries; try done;
    rewrite ?length_app; simpl; lia.
Qed.

(** X9.  No citation carries more than 500 characters of text. *)
Theorem snippet_at_most_500 (response : Response) (source : Source) :
  source ∈ _extract_sources rnd response →
  length (snippet source) ≤ 500.
Proof.
  rewrite extract_sources_chunks.
  revert source. apply Forall_forall.
  apply extract_loop_Forall; [|done].
  intros i context chunk. unfold make_source. cbn [snippet].
  destruct (has_true _); [|simpl; lia].
  unfold slice_to. rewrite length_take. lia.
Qed.

(** X10.  There are as many citations as the first candidate has chunks
    with the [retrieved_context] attribute, so never more than it has
    chunks; the chunks of other candidates give none. *)
Theorem citations_count (response : Response) :
  length (_extract_sources rnd response) =
  length (filter (λ c, has_retrieved_context c) (response_chunks response)) ∧
  length (_extract_sources rnd response) ≤ length (response_chunks response).
Proof.
  rewrite extract_sources_chunks, extract_loop_length. simpl.
  split; [done|]. apply length_filter.
Qed.

(** X11.  A citation named after a URI, for want of a title, is named by
    what follows the last '/' of the URI: the name holds no '/', and the URI
    is the name alone or ends with '/' and the name. *)
Theorem uri_filename_last_segment i c chunk u :
  has_true (title c) = false →
  uri c = Attr (Some u) → u ≠ [] →
  (slash ∉ filename (make_source rnd i (Some c) chunk)) ∧
  (u = filename (make_source rnd i (Some c) chunk) ∨
   ∃ p, u = p ++ slash :: filename (make_source rnd i (Some c) chunk)).
Proof.
  intros Htitle Huri Hu. unfold make_source. cbn [filename context_attr].
  rewrite Htitle, Huri.
  destruct u as [|ch u']; [done|]. cbn [has_true hasattr str_truthy andb attr_str].
  apply last_segment_split.
Qed.
End Citations.

(** ** Cost and latency *)

Section CostMore.
Variable rnd : Q → Q.
Hypothesis rnd_monotone : ∀ x y, (x <= y)%Q → (rnd x <= rnd y)%Q.
Hypothesis rnd_zero : (rnd 0 == 0)%Q.

Lemma rnd_nonneg x : (0 <= x)%Q → (0 <= rnd x)%Q.
Proof.
  intros Hx. apply Qle_trans with (rnd 0); [|by apply rnd_monotone].
  rewrite rnd_zero. apply Qle_refl.
Qed.

Lemma rnd_of_zero x : (x == 0)%Q → (rnd x == 0)%Q.
Proof.
  intros Hx. apply Qle_antisym.
  - apply Qle_trans with (rnd 0).
    + apply rnd_monotone. rewrite Hx. apply Qle_refl.
    + rewrite rnd_zero. apply Qle_refl.
  - apply rnd_nonneg. rewrite Hx. apply Qle_refl.
Qed.

Lemma share_nonneg (s : pystr) price :
  (0 <= price)%Q →
  (0 <= fmul rnd (fdiv rnd (fmul rnd (of_int rnd (len s)) (lit rnd (15 # 10)))
                   (of_int rnd 1000000)) price)%Q.
Proof.
  intros Hprice. unfold fmul, fdiv, of_int, lit.
  apply rnd_nonneg, Qmult_le_0_compat; [|done].
  apply rnd_nonneg. unfold Qdiv. apply Qmult_le_0_compat.
  - apply rnd_nonneg, Qmult_le_0_compat; apply rnd_nonneg; [|done].
    change 0%Q with (inject_Z 0). rewrite <- Zle_Qle. unfold len. lia.
  - apply Qinv_le_0_compat, rnd_nonneg. done.
Qed.

(** X12.  With prices that are not negative the estimate is never
    negative. *)
Theorem estimate_cost_nonneg (pricing : gmap string Q)
    (input_text output_text : pystr) :
  (∀ p, pricing !! "input_price" = Some p → (0 <= p)%Q) →
  (∀ p, pricing !! "output_price" = Some p → (0 <= p)%Q) →
  (0 <= _estimate_cost rnd pricing input_text output_text)%Q.
Proof.
  intros Hin Hout. unfold _estimate_cost, fadd.
  apply rnd_nonneg.
  apply Qle_trans with (0 + 0)%Q; [done|].
  apply Qplus_le_compat; apply share_nonneg.
  - destruct (pricing !! "input_price") as [p|]; simpl; [by apply Hin|].
    by apply rnd_nonneg.
  - destruct (pricing !! "output_price") as [p|]; simpl; [by apply Hout|].
    by apply rnd_nonneg.
Qed.

(** X13.  An empty question with an empty answer costs nothing, at any
    prices. *)
Theorem estimate_cost_empty (pricing : gmap string Q) :
  (_estimate_cost rnd pricing [] [] == 0)%Q.
Proof.
  unfold _estimate_cost, fadd, fmul, fdiv, of_int, lit, len. simpl.
  assert (rnd (rnd (inject_Z 0) * rnd (15 # 10)) == 0)%Q as Htokens.
  { apply rnd_of_zero. rewrite (rnd_of_zero (inject_Z 0)) by done. ring. }
  assert (∀ price,
            rnd (rnd (rnd (rnd (inject_Z 0) * rnd (15 # 10))
                      / rnd (inject_Z 1000000)) * price) == 0)%Q as Hshare.
  { intros price. apply rnd_of_zero.
    rewrite (rnd_of_zero (_ / _)); [ring|].
    rewrite Htokens. unfold Qdiv. ring. }
  apply rnd_of_zero. rewrite !Hshare. ring.
Qed.

(** X14.  When the clock does not run backwards during a query, the latency
    of the response is not negative. *)
Theorem query_latency_nonneg self question provider t0 t1 r calls :
  (t0 <= t1)%Q →
  query rnd self question provider t0 t1 = (Ok r, calls) →
  (0 <= latency r)%Q.
Proof.
  intros Hclock.
  destruct (query_cases rnd self question provider t0 t1)
    as [[e ->]|(request & -> & _)]; [done|].
  unfold respond.
  destruct (generate_content provider request) as [response|e]; simpl;
    [|done].
  destruct (answer_text response) as [a|]; simpl; [|done].
  destruct (estimate_cost_call rnd (pricing self) question a); simpl;
    intros [= <- _]; simpl; unfold _calculate_latency, fsub;
    apply rnd_nonneg; by apply (proj1 (Qle_minus_iff t0 t1)).
Qed.
End CostMore.

(** ** More on the pointer file *)

Section PointerMore.
Variable rnd : Q → Q.
Variable exn_str : exn → pystr.

Lemma index_info_dated f t :
  pointer_dated f = true →
  ∃ d age,
    f = Document (VDict d) ∧
    get_index_info rnd exn_str f t =
    Ok (<["exists" := VBool true]>
        (<["expired" := VBool false]>
        (<["created_time" := default (VStr unknown) (d !! "created_time")]>
        (<["age_hours" := VFloat age]>
        (<["total_files" := default (VInt 0) (d !! "total_files")]>
        (<["store_resource_name" :=
            default (VStr unknown) (d !! "store_resource_name")]> ∅)))))).
Proof.
  destruct f as [| | | |v]; try done. destruct v; try done. simpl.
  intros Hdated. exists d.
  unfold get_index_info, index_info_try. simpl. unfold dict_get_or.
  destruct (d !! "created_at") as [[]|]; try done; simpl; eauto.
  rewrite Hdated. simpl. eauto.
Qed.

Lemma index_info_undated f t :
  pointer_dated f = false →
  (f = Unsearchable ∧ get_index_info rnd exn_str f t = Raise OSError) ∨
  ∃ message, get_index_info rnd exn_str f t = Ok (not_found message).
Proof.
  unfold get_index_info, index_info_try.
  destruct f as [| | | |v]; simpl; eauto.
  destruct v; simpl; eauto.
  unfold dict_get_or.
  destruct (d !! "created_at") as [[]|]; try done; simpl; eauto.
  intros ->. simpl. eauto.
Qed.

(** X15.  [get_index_info] returns with [exists] true exactly when the
    pointer file holds a JSON object whose [created_at], if there is one,
    is a float, a boolean, or an integer that a float can hold, whatever
    else the object holds or lacks. *)
Theorem index_info_exists_iff (f : pointer_file) (t : Q) :
  (∃ info,
     get_index_info rnd exn_str f t = Ok info ∧
     info !! "exists" = Some (VBool true))
  ↔ pointer_dated f = true.
Proof.
  split.
  - intros (info & Hget & Hexists).
    destruct (pointer_dated f) eqn:Hdated; [done|].
    destruct (index_info_undated f t Hdated) as [[_ Hnot]|[message Hnot]];
      rewrite Hnot in Hget; [done|].
    injection Hget as <-.
    by rewrite not_found_exists in Hexists.
  - intros Hdated.
    destruct (index_info_dated f t Hdated) as (d & age & _ & ->).
    eexists. split; [done|]. by simplify_map_eq.
Qed.

(** X16.  [get_index_info] raises only when the existence test does, and
    the dictionary it returns has one of two shapes: with [exists] true it
    has the [total_files], [created_time], [age_hours] and
    [store_resource_name] that the sidebar reads; with [exists] false it has
    a [message] and none of them.  [expired] is false in both. *)
Theorem index_info_shapes (f : pointer_file) (t : Q) :
  match get_index_info rnd exn_str f t with
  | Raise e => f = Unsearchable ∧ e = OSError
  | Ok info =>
      info !! "expired" = Some (VBool false) ∧
      ((info !! "exists" = Some (VBool true) ∧
        is_Some (info !! "total_files") ∧
        is_Some (info !! "created_time") ∧
        is_Some (info !! "age_hours") ∧
        is_Some (info !! "store_resource_name") ∧
        info !! "message" = None)
       ∨
       (info !! "exists" = Some (VBool false) ∧
        (∃ message, info !! "message" = Some (VStr message)) ∧
        info !! "total_files" = None ∧ info !! "created_time" = None))
  end.
Proof.
  destruct (pointer_dated f) eqn:Hdated.
  - destruct (index_info_dated f t Hdated) as (d & age & _ & ->).
    split; [by simplify_map_eq|]. left.
    repeat split; by simplify_map_eq.
  - destruct (index_info_undated f t Hdated) as [[-> ->]|[message ->]];
      [done|].
    unfold not_found.
    split; [by simplify_map_eq|]. right.
    repeat split; try by simplify_map_eq.
    exists message. by simplify_map_eq.
Qed.

Lemma load_usable self d :
  truthy (dict_get d "store_resource_name") = true →
  load_corpus_info self (Document (VDict d)) =
  (Ok true,
   set_initialized
     (set_store_resource_name self (dict_get d "store_resource_name")) true).
Proof.
  intros Hname. by rewrite load_corpus_info_cases, Hname.
Qed.

Lemma load_not_object self f :
  (∀ d, f ≠ Document (VDict d)) → (load_corpus_info self f).2 = self.
Proof.
  intros Hf. rewrite load_corpus_info_cases.
  destruct f as [| | | |v]; try done. destruct v; try done.
  by destruct (Hf d).
Qed.

(** X17.  The sidebar and the adapter can disagree: for a pointer object
    without a store name, [get_index_info] says the index exists while
    [load_corpus_info] returns [False], does not set the flag, and a fresh
    adapter then refuses every query. *)
Theorem index_exists_but_not_loadable (f : pointer_file) (t : Q)
    (self : GeminiEngine) question provider t0 t1 :
  pointer_dated f = true → pointer_usable f = false →
  _initialized self = false →
  (∃ info,
     get_index_info rnd exn_str f t = Ok info ∧
     info !! "exists" = Some (VBool true)) ∧
  (load_corpus_info self f).1 = Ok false ∧
  query rnd (load_corpus_info self f).2 question provider t0 t1 =
  (Raise (RuntimeError msg_not_initialized), []).
Proof.
  intros Hdated Husable Hflag.
  split.
  { destruct (index_info_dated f t Hdated) as (d & age & _ & ->).
    eexists. split; [done|]. by simplify_map_eq. }
  destruct f as [| | | |v]; try done. destruct v; try done.
  simpl in Husable. rewrite load_lacking_resets_name by done.
  split; [done|]. unfold query. simpl. by rewrite Hflag.
Qed.

(** X18.  [load_corpus_info] returns [True] exactly when the pointer file
    holds a JSON object with a store name that is true; it then takes the
    name and sets the flag.  On a file that holds no JSON object it changes
    nothing.  It raises only when the existence test does. *)
Theorem load_iff_usable (self : GeminiEngine) (f : pointer_file) :
  (load_corpus_info self f).1 =
  (if f is Unsearchable then Raise OSError else Ok (pointer_usable f)) ∧
  (∀ d, f = Document (VDict d) →
     store_resource_name (load_corpus_info self f).2 =
     dict_get d "store_resource_name" ∧
     _initialized (load_corpus_info self f).2 =
     (_initialized self || pointer_usable f)) ∧
  ((∀ d, f ≠ Document (VDict d)) → (load_corpus_info self f).2 = self).
Proof.
  split; [|split].
  - rewrite load_corpus_info_cases.
    destruct f as [| | | |v]; try done. destruct v; try done. simpl.
    by destruct (truthy (dict_get d "store_resource_name")).
  - intros d ->. simpl.
    destruct (truthy (dict_get d "store_resource_name")) eqn:Hname.
    + rewrite load_usable by done. simpl. by rewrite orb_true_r.
    + rewrite load_lacking_resets_name by done. simpl. by rewrite orb_false_r.
  - apply load_not_object.
Qed.

(** X19.  Loading the same pointer file twice is loading it once. *)
Theorem load_twice (self : GeminiEngine) (f : pointer_file) :
  load_corpus_info (load_corpus_info self f).2 f = load_corpus_info self f.
Proof.
  destruct f as [| | | |v]; try done. destruct v; try done.
  destruct (truthy (dict_get d "store_resource_name")) eqn:Hname.
  - by rewrite !load_usable.
  - by rewrite !load_lacking_resets_name.
Qed.
End PointerMore.

(** ** More on ingestion *)

Lemma glob_txt_none data_dir :
  Forall (λ e, endswith (entry_name e) (py ".txt") = false) data_dir →
  glob_txt data_dir = [].
Proof.
  unfold glob_txt. induction 1 as [|e rest He _ IH]; [done|].
  rewrite filter_cons. case_decide; [congruence|done].
Qed.

Lemma build_index_run self data_dir provider t1 t2 ts d f name :
  create provider (store_display_name t1) = Ok name →
  build_index self data_dir provider t1 t2 ts d f =
  let self1 := set_store_resource_name self name in
  let uploaded_files := upload_loop provider 1 (glob_txt data_dir) [] in
  match d with
  | DiskOk =>
      (Ok {| found_count := length (glob_txt data_dir);
             uploaded_count := length uploaded_files;
             import_count := import_loop provider name 1 uploaded_files 0 |},
       set_initialized self1 true,
       Document (VDict (info_data name uploaded_files t2 ts)))
  | DiskRefuses => (Raise OSError, self1, f)
  | DiskBreaks => (Raise OSError, self1, Malformed)
  end.
Proof.
  intros Hcreate. unfold build_index. rewrite Hcreate. by destruct d.
Qed.

(** X20.  In a directory without a name that ends in ".txt", the empty one
    included, a build whose store is created and whose pointer is written
    returns without a single upload or import, writes a pointer with no
    files and [total_files] 0, and initializes the adapter. *)
Theorem build_nothing_to_ingest self data_dir provider t1 t2 ts f name :
  Forall (λ e, endswith (entry_name e) (py ".txt") = false) data_dir →
  create provider (store_display_name t1) = Ok name →
  build_index self data_dir provider t1 t2 ts DiskOk f =
  (Ok {| found_count := 0; uploaded_count := 0; import_count := 0 |},
   set_initialized (set_store_resource_name self name) true,
   Document (VDict (info_data name [] t2 ts))) ∧
  info_data name [] t2 ts !! "total_files" = Some (VInt 0).
Proof.
  intros Hnone Hcreate.
  rewrite (build_index_run _ _ _ _ _ _ _ _ _ Hcreate).
  rewrite (glob_txt_none _ Hnone). simpl.
  split; [done|].
  by destruct (info_data_lookups name [] t2 ts) as (_ & _ & _ & _ & ->).
Qed.

(** X21.  [build_index] returns exactly when the store is created and the
    pointer is written: no failure to open, upload or import a file makes it
    raise. *)
Theorem build_returns_iff self data_dir provider t1 t2 ts d f :
  is_ok (build_index self data_dir provider t1 t2 ts d f).1.1 = true
  ↔ is_ok (create provider (store_display_name t1)) = true ∧ d = DiskOk.
Proof.
  destruct (create provider (store_display_name t1)) as [name|e] eqn:Hcreate.
  - rewrite (build_index_run _ _ _ _ _ _ _ _ _ Hcreate).
    destruct d; simpl; split; try done; by intros [_ [=]].
  - unfold build_index. rewrite Hcreate. simpl. split; [done|by intros [[=] _]].
Qed.

(** X22.  A build that raises never sets the flag.  When the store could
    not be created, nothing has changed.  When the pointer could not be
    written, the adapter already holds the name of the new store, and the
    pointer file is as it was or, if the write broke half way, no longer
    JSON. *)
Theorem build_failure_effects self data_dir provider t1 t2 ts d f e :
  (build_index self data_dir provider t1 t2 ts d f).1.1 = Raise e →
  let self' := (build_index self data_dir provider t1 t2 ts d f).1.2 in
  let f' := (build_index self data_dir provider t1 t2 ts d f).2 in
  _initialized self' = _initialized self ∧
  (create provider (store_display_name t1) = Raise e ∧ self' = self ∧ f' = f
   ∨
   ∃ name, create provider (store_display_name t1) = Ok name ∧
           store_resource_name self' = name ∧
           (d = DiskRefuses ∧ f' = f ∨ d = DiskBreaks ∧ f' = Malformed)).
Proof.
  destruct (create provider (store_display_name t1)) as [name|e'] eqn:Hcreate.
  - rewrite (build_index_run _ _ _ _ _ _ _ _ _ Hcreate).
    destruct d; simpl; try done; intros _; (split; [done|]); right;
      exists name; eauto.
  - unfold build_index. rewrite Hcreate. simpl. intros [= ->].
    split; [done|]. by left.
Qed.

Lemma upload_loop_names provider txt_files : ∀ i uploaded_files names0,
  Forall2 (λ file_info n, record_display_name file_info = Some n)
    uploaded_files names0 →
  ∃ names,
    Forall2 (λ file_info n, record_display_name file_info = Some n)
      (upload_loop provider i txt_files uploaded_files) (names0 ++ names) ∧
    names `sublist_of` (entry_name <$> txt_files).
Proof.
  induction txt_files as [|e rest IH]; intros i uploaded_files names0 Hacc.
  { exists []. simpl. by rewrite app_nil_r. }
  simpl.
  destruct (if entry_opens e then upload provider i (entry_name e)
            else Raise OSError) as [file_obj_name|?].
  - destruct (IH (S i)
                (uploaded_files ++
                   [VDict (<["display_name" := VStr (entry_name e)]>
                           (<["file_name" := file_obj_name]> ∅))])
                (names0 ++ [entry_name e])) as (names & Hall & Hsub).
    { apply Forall2_app; [done|]. constructor; [|constructor].
      simpl. by simplify_map_eq. }
    exists (entry_name e :: names). split.
    + by rewrite <- app_assoc in Hall.
    + by apply sublist_skip.
  - destruct (IH (S i) uploaded_files names0 Hacc) as (names & Hall & Hsub).
    exists names. split; [done|]. by apply sublist_cons.
Qed.

(** X23.  The file records of the pointer a build writes carry, in the
    order of the directory listing, the names of some of the documents
    found, each at most once per listing entry; and every document found
    has a name that ends in ".txt". *)
Theorem pointer_files_are_documents self data_dir provider t1 t2 ts d f
    log self' f' :
  build_index self data_dir provider t1 t2 ts d f = (Ok log, self', f') →
  ∃ dict files names,
    f' = Document (VDict dict) ∧ dict !! "files" = Some (VList files) ∧
    Forall2 (λ file_info n, record_display_name file_info = Some n)
      files names ∧
    names `sublist_of` (entry_name <$> glob_txt data_dir) ∧
    glob_txt data_dir `sublist_of` data_dir ∧
    Forall (λ e, endswith (entry_name e) (py ".txt") = true)
      (glob_txt data_dir).
Proof.
  destruct (create provider (store_display_name t1)) as [name|e] eqn:Hcreate;
    [|unfold build_index; by rewrite Hcreate].
  rewrite (build_index_run _ _ _ _ _ _ _ _ _ Hcreate).
  destruct d; try done. simpl. intros [= _ _ <-].
  destruct (upload_loop_names provider (glob_txt data_dir) 1 [] [])
    as (names & Hall & Hsub); [done|].
  eexists _, _, names. split; [done|].
  split.
  { by destruct (info_data_lookups name
                   (upload_loop provider 1 (glob_txt data_dir) []) t2 ts)
      as (_ & _ & _ & -> & _). }
  split; [done|]. split; [done|]. split.
  - apply sublist_filter.
  - apply Forall_forall. intros e He.
    by apply list_elem_of_filter in He as [He _].
Qed.

(** X24.  An adapter that loads the pointer a build wrote gets the store of
    the adapter that built, and is initialized if that store has a name. *)
Theorem build_then_load_same_store self data_dir provider t1 t2 ts d f
    log self' f' (other : GeminiEngine) :
  build_index self data_dir provider t1 t2 ts d f = (Ok log, self', f') →
  store_resource_name (load_corpus_info other f').2 = store_resource_name self' ∧
  (load_corpus_info other f').1 = Ok (truthy (store_resource_name self')).
Proof.
  destruct (create provider (store_display_name t1)) as [name|e] eqn:Hcreate;
    [|unfold build_index; by rewrite Hcreate].
  rewrite (build_index_run _ _ _ _ _ _ _ _ _ Hcreate).
  destruct d; try done. simpl. intros [= _ <- <-]. simpl.
  destruct (info_data_lookups name
              (upload_loop provider 1 (glob_txt data_dir) []) t2 ts)
    as (Hname & _).
  simpl in Hname.
  rewrite load_corpus_info_cases. unfold dict_get. rewrite Hname. simpl.
  by destruct (truthy name).
Qed.

Lemma upload_loop_has_file_name provider txt_files : ∀ i uploaded_files,
  Forall (λ file_info, is_ok (getitem file_info "file_name") = true)
    uploaded_files →
  Forall (λ file_info, is_ok (getitem file_info "file_name") = true)
    (upload_loop provider i txt_files uploaded_files).
Proof.
  induction txt_files as [|e rest IH]; intros i uploaded_files Hacc; simpl;
    [done|].
  apply IH.
  destruct (if entry_opens e then upload provider i (entry_name e)
            else Raise OSError); [|done].
  apply Forall_app. split; [done|]. apply Forall_singleton.
  simpl. by simplify_map_eq.
Qed.

Lemma import_loop_all provider store uploaded_files : ∀ i n,
  (∀ j file_name, import_file provider j store file_name = Ok ()) →
  Forall (λ file_info, is_ok (getitem file_info "file_name") = true)
    uploaded_files →
  import_loop provider store i uploaded_files n = n + length uploaded_files.
Proof.
  induction uploaded_files as [|file_info rest IH]; intros i n Himport Hall;
    simpl; [lia|].
  apply Forall_cons in Hall as [Hname Hrest].
  destruct (getitem file_info "file_name") as [file_name|]; [|done]. simpl.
  rewrite Himport, IH by done. lia.
Qed.

Lemma import_loop_none provider store uploaded_files : ∀ i n,
  (∀ j file_name, is_ok (import_file provider j store file_name) = false) →
  import_loop provider store i uploaded_files n = n.
Proof.
  induction uploaded_files as [|file_info rest IH]; intros i n Himport;
    simpl; [done|].
  destruct (getitem file_info "file_name") as [file_name|]; simpl;
    [|by apply IH].
  pose proof (Himport i file_name) as Hrefused.
  destruct (import_file provider i _ file_name); [done|by apply IH].
Qed.

(** X25.  When the provider accepts every import, a build that returns has
    imported as many files as it uploaded; when it refuses every import,
    none, and the build returns all the same. *)
Theorem import_count_extremes self data_dir provider t1 t2 ts d f
    log self' f' :
  build_index self data_dir provider t1 t2 ts d f = (Ok log, self', f') →
  ((∀ j file_name,
      import_file provider j (store_resource_name self') file_name = Ok ()) →
   import_count log = uploaded_count log) ∧
  ((∀ j file_name,
      is_ok (import_file provider j (store_resource_name self') file_name)
      = false) →
   import_count log = 0).
Proof.
  destruct (create provider (store_display_name t1)) as [name|e] eqn:Hcreate;
    [|unfold build_index; by rewrite Hcreate].
  rewrite (build_index_run _ _ _ _ _ _ _ _ _ Hcreate).
  destruct d; try done. simpl. intros [= <- <- _]. simpl. split.
  - intros Himport. rewrite import_loop_all; [done|done|].
    by apply upload_loop_has_file_name.
  - intros Himport. by rewrite import_loop_none.
Qed.

(** ** The configuration loader *)

Section LoaderProperties.
Context {A : Type}.

(** X26.  A [load_config] that raises leaves the cache as it was, and what
    it raises is [FileNotFoundError], for the path it looked at, exactly
    when the file is missing. *)
Theorem load_config_failure (fs : string → string → yaml_file A)
    (self self' : ConfigLoader A) (config_file : string) (e : config_exn) :
  load_config fs self config_file = (LoadRaises e, self') →
  self' = self ∧
  (e = FileNotFoundError (config_dir self) config_file
   ↔ fs (config_dir self) config_file = YamlMissing).
Proof.
  unfold load_config.
  destruct (fs (config_dir self) config_file); intros [= <- <-]; done.
Qed.

(** X27.  Once a configuration is loaded, [get_config] serves it from the
    cache without looking at the disk: whatever has become of the file, it
    returns the document loaded and leaves the loader as it is.
    [load_config] would read the file again. *)
Theorem get_config_cached (fs fs' : string → string → yaml_file A)
    (self self' : ConfigLoader A) (config_file : string) (doc : A) :
  load_config fs self config_file = (Loaded doc, self') →
  get_config fs' self' config_file = (Loaded doc, self') ∧
  (∀ doc', fs' (config_dir self') config_file = YamlDocument doc' →
           (load_config fs' self' config_file).1 = Loaded doc').
Proof.
  unfold load_config at 1.
  destruct (fs (config_dir self) config_file); intros [= <- <-].
  split.
  - unfold get_config. simpl. by rewrite lookup_insert_eq.
  - intros doc' Hfs'. unfold load_config. simpl in *. by rewrite Hfs'.
Qed.



End LoaderProperties.

(** ** The start-up *)

(** X29.  The application starts with an adapter exactly when the
    configuration file of the loader's directory holds a mapping, the
    environment holds the key, and the existence of the pointer file can be
    told.  It stops on a missing file with [FileNotFoundError], on a file
    that holds no mapping (an empty one, say) with [AttributeError], on a
    missing key with the [ValueError] of the adapter.  The adapter it starts
    with has the configuration of the file and is initialized exactly when
    the pointer file is usable; the configuration stays in the cache of the
    module's loader. *)
Theorem initialize_outcome (fs : string → string → yaml_file (option Config))
    (instance : option (ConfigLoader (option Config)))
    (environ : gmap string pystr) (f : pointer_file) :
  let dir := if instance is Some l then config_dir l else "config" in
  match fs dir "gemini_config.yaml" with
  | YamlDocument (Some cfg) =>
      match __init__ cfg environ with
      | Ok _ =>
          if f is Unsearchable
          then ∃ loader,
                 initialize_gemini_engine fs instance environ f =
                 (Stopped (inr OSError), Some loader)
          else ∃ gemini_engine loader,
                 initialize_gemini_engine fs instance environ f =
                 (Started gemini_engine, Some loader) ∧
                 status_config (get_status gemini_engine) = cfg ∧
                 status_initialized (get_status gemini_engine)
                 = pointer_usable f ∧
                 _configs loader !! "gemini_config.yaml" = Some (Some cfg)
      | Raise e =>
          ∃ loader,
            initialize_gemini_engine fs instance environ f =
            (Stopped (inr e), Some loader)
      end
  | YamlDocument None =>
      ∃ loader,
        initialize_gemini_engine fs instance environ f =
        (Stopped (inr AttributeError), Some loader)
  | YamlMissing =>
      ∃ loader,
        initialize_gemini_engine fs instance environ f =
        (Stopped (inl (FileNotFoundError dir "gemini_config.yaml")),
         Some loader)
  | _ =>
      ∃ e loader,
        initialize_gemini_engine fs instance environ f =
        (Stopped (inl e), Some loader)
  end.
Proof.
  intros dir. unfold initialize_gemini_engine, load_config.
  assert (config_dir (get_config_loader instance).1 = dir) as Hdir.
  { subst dir. by destruct instance. }
  destruct (get_config_loader instance) as [config_loader g] eqn:Hloader.
  simpl in Hdir. rewrite Hdir.
  destruct (fs dir "gemini_config.yaml") as [| | |[cfg|]]; eauto.
  unfold GeminiEngine_of.
  destruct (__init__ cfg environ) as [gemini_engine|e] eqn:Hinit; eauto.
  rewrite load_corpus_info_cases.
  unfold __init__ in Hinit. destruct (negb _); [done|].
  injection Hinit as <-.
  destruct f as [| | | |v]; eauto;
    try (eexists _, _; split; [done|]; split; [done|]; split; [done|];
         simpl; by rewrite lookup_insert_eq).
  destruct v;
    try (eexists _, _; split; [done|]; split; [done|]; split; [done|];
         simpl; by rewrite lookup_insert_eq).
  simpl.
  destruct (truthy (dict_get d "store_resource_name")) eqn:Hname;
    eexists _, _; (split; [done|]); (split; [done|]); (split; [done|]);
    simpl; by rewrite lookup_insert_eq.
Qed.

(** ** Instances of the further properties *)

Lemma query_calls_witness :
  (query exact ready_engine (py "why") forbidden_provider 0 1).2 =
  [request_of exact ready_engine ∅ (py "why")].
Proof.
  destruct (query_calls exact ready_engine (py "why") forbidden_provider 0 1)
    as (_ & _ & Hcalls & _).
  apply Hcalls.
  split; [reflexivity|]. split; [reflexivity|]. split; [|reflexivity].
  exists ∅. split; reflexivity.
Defined.

Lemma query_provider_error_propagates_witness :
  (query exact ready_engine (py "why") forbidden_provider 0 1).1 =
  Raise (ProviderError (py "called")).
Proof.
  apply (query_provider_error_propagates exact ready_engine (py "why")
           forbidden_provider 0 1
           (request_of exact ready_engine ∅ (py "why")));
    reflexivity.
Defined.

Lemma query_no_text_raises_witness :
  (query exact ready_engine (py "why")
     (provider_answering (response_with None (Attr (Some [chunk_A])))) 0 1).1 =
  Raise TypeError.
Proof.
  apply (query_no_text_raises exact ready_engine (py "why")
           (provider_answering (response_with None (Attr (Some [chunk_A]))))
           0 1 (request_of exact ready_engine ∅ (py "why"))
           (response_with None (Attr (Some [chunk_A])))); reflexivity.
Defined.

Lemma build_then_query_scoped_witness :
  ∃ request,
    (query exact
       (build_index fresh_engine sample_dir provider_refusing_second_import
          1700000000 1700000060 (py "2023-11-14 22:14:20") DiskOk NoFile).1.2
       (py "why") forbidden_provider 0 1).2 = [request] ∧
    req_file_search_store_names request = [sample_store] ∧
    req_contents request = py "why".
Proof.
  destruct (build_then_query_scoped exact fresh_engine sample_dir
              provider_refusing_second_import 1700000000%Q 1700000060%Q
              (py "2023-11-14 22:14:20") DiskOk NoFile _ _ _ sample_store
              (py "why") forbidden_provider 0%Q 1%Q eq_refl eq_refl eq_refl)
    as [Hscoped Hcalls].
  specialize (Hcalls ∅ eq_refl eq_refl).
  eexists. split; [exact Hcalls|].
  apply Hscoped. rewrite Hcalls. apply list_elem_of_here.
Defined.

Lemma load_then_query_scoped_witness :
  ∃ d name request,
    sample_pointer = Document (VDict d) ∧
    d !! "store_resource_name" = Some name ∧
    (query exact (load_corpus_info fresh_engine sample_pointer).2 (py "why")
       forbidden_provider 0 1).2 = [request] ∧
    req_file_search_store_names request = [name].
Proof.
  destruct (load_then_query_scoped exact fresh_engine sample_pointer _
              (py "why") forbidden_provider 0%Q 1%Q eq_refl)
    as (d & name & Hf & Hname & Hscoped & Hcalls).
  specialize (Hcalls ∅ eq_refl eq_refl).
  exists d, name. eexists.
  split; [exact Hf|]. split; [exact Hname|]. split; [exact Hcalls|].
  apply Hscoped. rewrite Hcalls. apply list_elem_of_here.
Defined.

Lemma snippet_at_most_500_witness :
  length (py "hello") ≤ 500.
Proof.
  apply (snippet_at_most_500 exact
           (response_with None (Attr (Some [chunk_A])))
           {| filename := py "A.txt"; snippet := py "hello"; score := 1%Q;
              metadata := Some (<["type" := VStr (py "file_search")]>
                                (<["index" := VInt 0]> ∅)) |}).
  apply list_elem_of_here.
Defined.

Lemma uri_filename_last_segment_witness :
  (slash ∉ filename (make_source exact 2 (Some context_B) chunk_B)) ∧
  (py "gs://docs/B.txt" = filename (make_source exact 2 (Some context_B) chunk_B)
   ∨ ∃ p, py "gs://docs/B.txt" =
          p ++ slash :: filename (make_source exact 2 (Some context_B) chunk_B)).
Proof.
  apply (uri_filename_last_segment exact 2 context_B chunk_B
           (py "gs://docs/B.txt")); [reflexivity | reflexivity | discriminate].
Defined.

Lemma estimate_cost_nonneg_witness :
  (0 <= _estimate_cost exact sample_pricing (py "why") (py "because"))%Q.
Proof.
  apply (estimate_cost_nonneg exact exact_monotone exact_zero sample_pricing);
    apply sample_pricing_nonneg.
Defined.

Lemma estimate_cost_empty_witness :
  (_estimate_cost exact sample_pricing [] [] == 0)%Q.
Proof.
  apply (estimate_cost_empty exact exact_monotone exact_zero sample_pricing).
Defined.

Lemma query_latency_nonneg_witness :
  ∃ r calls,
    query exact ready_engine (py "why")
      (provider_answering ungrounded_response) 5 7 = (Ok r, calls) ∧
    (0 <= latency r)%Q.
Proof.
  eexists _, _. split; [reflexivity|].
  eapply (query_latency_nonneg exact exact_monotone exact_zero ready_engine
            (py "why") (provider_answering ungrounded_response) 5 7);
    [discriminate | reflexivity].
Defined.

Lemma index_exists_but_not_loadable_witness :
  (∃ info,
     get_index_info exact (λ _, []) empty_pointer 3600 = Ok info ∧
     info !! "exists" = Some (VBool true)) ∧
  (load_corpus_info fresh_engine empty_pointer).1 = Ok false ∧
  query exact (load_corpus_info fresh_engine empty_pointer).2 (py "why")
    forbidden_provider 0 1 =
  (Raise (RuntimeError msg_not_initialized), []).
Proof.
  apply (index_exists_but_not_loadable exact (λ _, []) empty_pointer 3600
           fresh_engine (py "why") forbidden_provider 0 1); reflexivity.
Defined.

Lemma build_nothing_to_ingest_witness :
  build_index fresh_engine other_dir forbidden_provider 0 0 [] DiskOk NoFile
  = (Raise (ProviderError (py "called")), fresh_engine, NoFile) ∧
  (build_index fresh_engine other_dir (provider_answering ungrounded_response)
     0 60 (py "1970-01-01 00:01:00") DiskOk NoFile).1.1 =
  Ok {| found_count := 0; uploaded_count := 0; import_count := 0 |}.
Proof.
  split; [reflexivity|].
  destruct (build_nothing_to_ingest fresh_engine other_dir
              (provider_answering ungrounded_response) 0 60
              (py "1970-01-01 00:01:00") NoFile sample_store) as [Hrun _].
  - repeat constructor.
  - reflexivity.
  - by rewrite Hrun.
Defined.

Lemma build_failure_effects_witness :
  _initialized
    (build_index ready_engine sample_dir
       (provider_answering ungrounded_response) 0 60 [] DiskRefuses
       sample_pointer).1.2 = true.
Proof.
  destruct (build_failure_effects ready_engine sample_dir
              (provider_answering ungrounded_response) 0 60 [] DiskRefuses
              sample_pointer OSError eq_refl) as [Hflag _].
  exact Hflag.
Defined.

Lemma pointer_files_are_documents_witness :
  ∃ dict files names,
    (build_index fresh_engine sample_dir provider_refusing_second_import
       1700000000 1700000060 (py "2023-11-14 22:14:20") DiskOk NoFile).2
    = Document (VDict dict) ∧
    dict !! "files" = Some (VList files) ∧
    Forall2 (λ file_info n, record_display_name file_info = Some n)
      files names ∧
    names `sublist_of` (entry_name <$> glob_txt sample_dir) ∧
    glob_txt sample_dir `sublist_of` sample_dir ∧
    Forall (λ e, endswith (entry_name e) (py ".txt") = true)
      (glob_txt sample_dir).
Proof.
  apply (pointer_files_are_documents fresh_engine sample_dir
           provider_refusing_second_import 1700000000%Q 1700000060%Q
           (py "2023-11-14 22:14:20") DiskOk NoFile _ _ _ eq_refl).
Defined.

Lemma build_then_load_same_store_witness :
  store_resource_name
    (load_corpus_info fresh_engine
       (build_index fresh_engine sample_dir provider_refusing_second_import
          1700000000 1700000060 (py "2023-11-14 22:14:20") DiskOk NoFile).2).2
  = sample_store.
Proof.
  destruct (build_then_load_same_store fresh_engine sample_dir
              provider_refusing_second_import 1700000000%Q 1700000060%Q
              (py "2023-11-14 22:14:20") DiskOk NoFile _ _ _ fresh_engine
              eq_refl) as [Hstore _].
  exact Hstore.
Defined.

Lemma import_count_extremes_witness :
  ∃ log,
    (build_index fresh_engine sample_dir
       (provider_answering ungrounded_response) 0 60 [] DiskOk NoFile).1.1
    = Ok log ∧
    import_count log = uploaded_count log.
Proof.
  eexists. split; [reflexivity|].
  apply (import_count_extremes fresh_engine sample_dir
           (provider_answering ungrounded_response) 0 60 [] DiskOk NoFile
           _ _ _ eq_refl).
  intros j file_name. reflexivity.
Defined.

Lemma load_config_failure_witness :
  (load_config sample_fs (ConfigLoader_init "config") "config.yaml").2
  = ConfigLoader_init "config".
Proof.
  destruct (load_config_failure sample_fs (ConfigLoader_init "config") _
              "config.yaml" _ eq_refl) as [Hsame _].
  exact Hsame.
Defined.

Lemma get_config_cached_witness :
  (get_config empty_fs
     (load_config sample_fs (ConfigLoader_init "config")
        "gemini_config.yaml").2 "gemini_config.yaml").1
  = Loaded (Some sample_config).
Proof.
  destruct (get_config_cached sample_fs empty_fs (ConfigLoader_init "config")
              _ "gemini_config.yaml" (Some sample_config) eq_refl)
    as [Hcached _].
  exact (f_equal fst Hcached).
Defined.

Example initialize_sample :
  ∃ gemini_engine loader,
    initialize_gemini_engine sample_fs None sample_environ sample_pointer
    = (Started gemini_engine, Some loader) ∧
    _initialized gemini_engine = true ∧
    store_resource_name gemini_engine = sample_store.
Proof. eexists _, _. repeat split. Qed.

Example initialize_without_key :
  (initialize_gemini_engine sample_fs None ∅ sample_pointer).1
  = Stopped (inr (ValueError (msg_no_api_key ++ py "GEMINI_API_KEY"))).
Proof. reflexivity. Qed.

(** An empty configuration file stops the application with the
    [AttributeError] of [None.get]. *)
Example initialize_blank_file :
  (initialize_gemini_engine blank_fs None sample_environ sample_pointer).1
  = Stopped (inr AttributeError).
Proof. reflexivity. Qed.

(** A pointer file in a directory that cannot be searched stops it with
    what the existence test raises. *)
Example initialize_unsearchable :
  (initialize_gemini_engine sample_fs None sample_environ Unsearchable).1
  = Stopped (inr OSError).
Proof. reflexivity. Qed.

(** A generation section that is [null] in the file makes every query of an
    initialized adapter raise before a call is made. *)
Example query_null_generation :
  let cfg := {| cfg_api_key_env := None; cfg_model := None;
                cfg_pricing := None; cfg_generation := Some VNone |} in
  ∃ self,
    __init__ cfg sample_environ = Ok self ∧
    query exact (load_corpus_info self sample_pointer).2 (py "why")
      forbidden_provider 0 1 = (Raise AttributeError, []).
Proof. eexists. split; reflexivity. Qed.

(** A pricing section that is [null] in the file makes every query raise
    after its call was answered. *)
Example query_null_pricing :
  let cfg := {| cfg_api_key_env := None; cfg_model := None;
                cfg_pricing := Some VNone; cfg_generation := None |} in
  ∃ self,
    __init__ cfg sample_environ = Ok self ∧
    query exact (load_corpus_info self sample_pointer).2 (py "why")
      (provider_answering ungrounded_response) 0 1 =
    (Raise AttributeError,
     [request_of exact (load_corpus_info self sample_pointer).2 ∅
        (py "why")]).
Proof. eexists. split; reflexivity. Qed.

(** A pointer whose store name is a number loads, and the library then
    refuses the arguments of every query, before a call is made. *)
Example query_numbered_store :
  (load_corpus_info fresh_engine numbered_pointer).1 = Ok true ∧
  query exact (load_corpus_info fresh_engine numbered_pointer).2 (py "why")
    (strict_provider ungrounded_response) 0 1 =
  (Raise (ValidationError (py "file_search_store_names: str expected")), []).
Proof. split; reflexivity. Qed.

(** A creation time that no float can hold makes the read fail: the index
    is reported as not found, while the pointer loads. *)
Example index_info_overdated :
  get_index_info exact (λ _, []) overdated_pointer 0 =
  Ok (not_found msg_read_failed) ∧
  (load_corpus_info fresh_engine overdated_pointer).1 = Ok true.
Proof. split; vm_compute; reflexivity. Qed.

Example repr_fresh_engine :
  __repr__ fresh_engine = py "GeminiEngine(initialized=False)" ∧
  __repr__ ready_engine = py "GeminiEngine(initialized=True)".
Proof. split; reflexivity. Qed.
